(** * Memory-thinking server: Graph Store, Chain Store and Orchestrator

    A shallow embedding of [KnowledgeGraphManager], [ThinkingManager] and
    [MemoryThinkingManager] (the TypeScript source of the server), with the
    two backing files, the clock and the random generator threaded through
    an explicit world, and JavaScript exceptions as a result type. *)

From Stdlib Require Import ZArith Bool Ascii String.
From Stdlib Require Import Floats.SpecFloat.
From stdpp Require Import base gmap strings list fin_maps.

Local Open Scope Z_scope.

(** ** JavaScript numbers

    A JS number is an IEEE 754 binary64 value; [spec_float] is the
    inductive description of those values (signed zeros, infinities, NaN,
    and finite values [(-1)^s * m * 2^e]). *)

Definition number : Type := spec_float.

(** The binary64 value of an integer literal. *)
Definition number_of_Z (z : Z) : number := binary_normalize 53 1024 z 0 false.

(** The binary64 value of [m * 2^e]. *)
Definition number_of_dyadic (m e : Z) : number := binary_normalize 53 1024 m e false.

(** ToBoolean on a number: [0], [-0] and [NaN] are falsy. *)
Definition truthy_number (n : number) : bool :=
  match n with
  | S754_zero _ | S754_nan => false
  | S754_infinity _ | S754_finite _ _ _ => true
  end.

(** [a > b] on numbers (false as soon as one side is NaN). *)
Definition number_gt (a b : number) : bool := SFltb b a.

(** The value is a mathematical integer. *)
Definition is_integer (n : number) : bool :=
  match n with
  | S754_zero _ => true
  | S754_finite _ m e => (0 <=? e) || (Z.pos m mod 2 ^ (- e) =? 0)
  | S754_infinity _ | S754_nan => false
  end.

(** The value is an integer [>= 1] (what the tool schema calls
    [type: "integer", minimum: 1]). *)
Definition is_positive_integer (n : number) : bool :=
  match n with
  | S754_finite false _ _ => is_integer n
  | _ => false
  end.

(** ** Untyped JavaScript values, as far as request validation sees them *)

Inductive js_value : Type :=
  | JUndefined
  | JNull
  | JBoolean (b : bool)
  | JNumber (n : number)
  | JString (s : string)
  | JObject.

Definition typeof (v : js_value) : string :=
  match v with
  | JUndefined => "undefined"
  | JNull => "object"
  | JBoolean _ => "boolean"
  | JNumber _ => "number"
  | JString _ => "string"
  | JObject => "object"
  end.

(** ToBoolean. *)
Definition truthy (v : js_value) : bool :=
  match v with
  | JUndefined | JNull => false
  | JBoolean b => b
  | JNumber n => truthy_number n
  | JString s => negb (String.eqb s "")
  | JObject => true
  end.

(** Truthiness of optional typed fields ([undefined] when absent). *)
Definition truthy_string (o : option string) : bool :=
  match o with
  | Some s => negb (String.eqb s "")
  | None => false
  end.

Definition truthy_opt_number (o : option number) : bool :=
  match o with
  | Some n => truthy_number n
  | None => false
  end.

Definition truthy_opt_bool (o : option bool) : bool :=
  match o with
  | Some b => b
  | None => false
  end.

(** ** Exceptions *)

Inductive js_error : Type :=
  | Error (message : string)
  | TypeError (message : string)
  | SyntaxError (message : string)
  | SystemError (code : string).

(** [error.message].  The messages the program writes itself ([Error]) are
    exact; for errors raised by the runtime the text stands for the
    runtime's own wording: a system error is represented by its code, a
    [SyntaxError] of [JSON.parse] by one fixed text. *)
Definition error_message (e : js_error) : string :=
  match e with
  | Error m | TypeError m | SyntaxError m => m
  | SystemError c => c
  end.

(** ['code' in error && error.code === c]. *)
Definition has_code (e : js_error) (c : string) : bool :=
  match e with
  | SystemError c' => String.eqb c' c
  | _ => false
  end.

Inductive outcome (A : Type) : Type :=
  | Return (a : A)
  | Throw (e : js_error).
Arguments Return {A} a.
Arguments Throw {A} e.

(** ** Data model *)

Module Entity.
Record t : Type := mk {
  name : string;
  entityType : string;
  observations : list string
}.
End Entity.
Abbreviation Entity := Entity.t.

Module Relation.
Record t : Type := mk {
  from : string;
  to : string;
  relationType : string
}.
End Relation.
Abbreviation Relation := Relation.t.

Record KnowledgeGraph : Type := {
  entities : list Entity;
  relations : list Relation
}.

(** [ThoughtData] together with the two flags of [MemoryThinkingInput]: the
    orchestrator hands the same object to the chain store, whose spread
    [{...input, timestamp}] copies every field of it. *)
Record MemoryThinkingInput : Type := {
  thought : string;
  thoughtNumber : number;
  totalThoughts : number;
  isRevision : option bool;
  revisesThought : option number;
  branchFromThought : option number;
  branchId : option string;
  needsMoreThoughts : option bool;
  nextThoughtNeeded : bool;
  context : option string;
  timestamp : option Z;
  storeInMemory : option bool;
  retrieveFromMemory : option bool
}.
Abbreviation ThoughtData := MemoryThinkingInput.

Module ThoughtChain.
Record t : Type := mk {
  id : string;
  context : string;
  thoughts : list ThoughtData;
  branches : gmap string (list ThoughtData);
  createdAt : Z;
  updatedAt : Z
}.
End ThoughtChain.
Abbreviation ThoughtChain := ThoughtChain.t.

(** The request as it arrives: the four required fields are unchecked JS
    values; the optional ones are read at their declared types. *)
Record RawInput : Type := {
  raw_thought : js_value;
  raw_thoughtNumber : js_value;
  raw_totalThoughts : js_value;
  raw_nextThoughtNeeded : js_value;
  raw_isRevision : option bool;
  raw_revisesThought : option number;
  raw_branchFromThought : option number;
  raw_branchId : option string;
  raw_needsMoreThoughts : option bool;
  raw_context : option string;
  raw_timestamp : option Z;
  raw_storeInMemory : option bool;
  raw_retrieveFromMemory : option bool
}.

(** ** The world: two files, the clock and the random generator

    A file either does not exist, cannot be read (any other system error
    code), or holds data.  The data is kept at the level [JSON.parse] sees:
    the graph file as its sequence of lines, the chain file as one
    document.  Every write in the program follows a successful read of the
    same file, or a read that found no file; such a write is taken to
    succeed. *)

Inductive file (A : Type) : Type :=
  | NoFile
  | ReadError (code : string)
  | Content (data : A).
Arguments NoFile {A}.
Arguments ReadError {A} code.
Arguments Content {A} data.

(** One line of the graph file: blank (dropped by the [trim] filter), a
    record tagged ["entity"], one tagged ["relation"], any other JSON
    value but [null] (its [type] is neither tag: ignored by the reducer),
    the JSON value [null] (reading its [type] throws), or text that
    [JSON.parse] rejects. *)
Inductive line : Type :=
  | BlankLine
  | EntityLine (e : Entity)
  | RelationLine (r : Relation)
  | OtherLine
  | NullLine
  | BadLine.

(** The chain file's text, as [JSON.parse] reads it. *)
Inductive document (A : Type) : Type :=
  | Unparsable
  | Parsed (value : A).
Arguments Unparsable {A}.
Arguments Parsed {A} value.

(** [clock n] is the value of the n-th call of [Date.now()], and
    [random n] the text [Math.random().toString(36).substring(2)] of the
    n-th call of [Math.random()]. *)
Record World : Type := {
  memory_file : file (list line);
  thinking_file : file (document (gmap string ThoughtChain));
  clock : nat → Z;
  clock_reads : nat;
  random : nat → string;
  random_reads : nat
}.

Definition set_memory_file (f : file (list line)) (w : World) : World :=
  {| memory_file := f; thinking_file := thinking_file w;
     clock := clock w; clock_reads := clock_reads w;
     random := random w; random_reads := random_reads w |}.

Definition set_thinking_file (f : file (document (gmap string ThoughtChain)))
    (w : World) : World :=
  {| memory_file := memory_file w; thinking_file := f;
     clock := clock w; clock_reads := clock_reads w;
     random := random w; random_reads := random_reads w |}.

(** ** Computations: state passing with exceptions *)

Definition M (A : Type) : Type := World → outcome A * World.

Definition ret {A} (a : A) : M A := λ w, (Return a, w).

Definition throw {A} (e : js_error) : M A := λ w, (Throw e, w).

Definition bind {A B} (m : M A) (k : A → M B) : M B :=
  λ w, match m w with
       | (Return a, w') => k a w'
       | (Throw e, w') => (Throw e, w')
       end.

(** [try { body } catch (error) { handler }]. *)
Definition try_catch {A} (body : M A) (handler : js_error → M A) : M A :=
  λ w, match body w with
       | (Return a, w') => (Return a, w')
       | (Throw e, w') => handler e w'
       end.

(** A pure step that may throw. *)
Definition lift {A} (o : outcome A) : M A := λ w, (o, w).

Notation "x ←' m ; k" := (bind m (λ x, k))
  (at level 20, m at level 100, k at level 200, right associativity,
   format "x  ←'  m ; '/' k").
Notation "m ;;' k" := (bind m (λ _, k))
  (at level 100, k at level 200, right associativity,
   format "m  ;;' '/' k").

(** The world after one more call of [Date.now()], of [Math.random()]. *)
Definition tick (w : World) : World :=
  {| memory_file := memory_file w; thinking_file := thinking_file w;
     clock := clock w; clock_reads := S (clock_reads w);
     random := random w; random_reads := random_reads w |}.

Definition draw (w : World) : World :=
  {| memory_file := memory_file w; thinking_file := thinking_file w;
     clock := clock w; clock_reads := clock_reads w;
     random := random w; random_reads := S (random_reads w) |}.

Definition Date_now : M Z :=
  λ w, (Return (clock w (clock_reads w)), tick w).

Definition Math_random_toString36_substring2 : M string :=
  λ w, (Return (random w (random_reads w)), draw w).

(** [fs.readFile]: rejects with the system error of the file's state. *)
Definition readFile {A} (sel : World → file A) : M A :=
  λ w, match sel w with
       | NoFile => (Throw (SystemError "ENOENT"), w)
       | ReadError code => (Throw (SystemError code), w)
       | Content data => (Return data, w)
       end.

(** ** KnowledgeGraphManager *)

Definition empty_graph : KnowledgeGraph := {| entities := []; relations := [] |}.

Definition is_blank (l : line) : bool :=
  match l with BlankLine => true | _ => false end.

(** The reducer of [loadGraph], one line at a time; [JSON.parse] throws on
    a bad line, and [item.type] throws when the line is [null]. *)
Fixpoint reduce_lines (lines : list line) (graph : KnowledgeGraph)
    : outcome KnowledgeGraph :=
  match lines with
  | [] => Return graph
  | l :: rest =>
      match l with
      | BadLine => Throw (SyntaxError "Unexpected token in JSON")
      | NullLine => Throw (TypeError "Cannot read properties of null (reading 'type')")
      | EntityLine e =>
          reduce_lines rest
            {| entities := entities graph ++ [e]; relations := relations graph |}
      | RelationLine r =>
          reduce_lines rest
            {| entities := entities graph; relations := relations graph ++ [r] |}
      | BlankLine | OtherLine => reduce_lines rest graph
      end
  end.

Definition loadGraph : M KnowledgeGraph :=
  try_catch
    (data ←' readFile memory_file;
     let lines := List.filter (λ l, negb (is_blank l)) data in
     lift (reduce_lines lines empty_graph))
    (λ error,
       if has_code error "ENOENT" then ret empty_graph else throw error).

Definition saveGraph (graph : KnowledgeGraph) : M unit :=
  λ w,
    let lines := (EntityLine <$> entities graph) ++ (RelationLine <$> relations graph) in
    (Return tt, set_memory_file (Content lines) w).

Definition createEntities (candidates : list Entity) : M (list Entity) :=
  graph ←' loadGraph;
  let newEntities :=
    List.filter
      (λ e, negb (existsb
                    (λ existingEntity,
                       String.eqb (Entity.name existingEntity) (Entity.name e))
                    (entities graph)))
      candidates in
  let graph :=
    {| entities := entities graph ++ newEntities; relations := relations graph |} in
  saveGraph graph ;;'
  ret newEntities.

Definition createRelations (candidates : list Relation) : M (list Relation) :=
  graph ←' loadGraph;
  let newRelations :=
    List.filter
      (λ r, negb (existsb
                    (λ existingRelation,
                       String.eqb (Relation.from existingRelation) (Relation.from r)
                       && String.eqb (Relation.to existingRelation) (Relation.to r)
                       && String.eqb (Relation.relationType existingRelation)
                                     (Relation.relationType r))
                    (relations graph)))
      candidates in
  let graph :=
    {| entities := entities graph; relations := relations graph ++ newRelations |} in
  saveGraph graph ;;'
  ret newRelations.

(** One item of an [addObservations] batch, and one item of its result. *)
Module ObservationItem.
Record t : Type := mk {
  entityName : string;
  contents : list string
}.
End ObservationItem.
Abbreviation ObservationItem := ObservationItem.t.

Module AddedItem.
Record t : Type := mk {
  entityName : string;
  addedObservations : list string
}.
End AddedItem.
Abbreviation AddedItem := AddedItem.t.

(** [array.includes(x)] on an array of strings. *)
Definition array_includes (l : list string) (x : string) : bool :=
  existsb (String.eqb x) l.

(** [entity.observations.push(...new)] where [entity] is the object that
    [find] returned: the first entity of the array carrying that name. *)
Fixpoint push_observations (entityName : string) (new : list string)
    (es : list Entity) : list Entity :=
  match es with
  | [] => []
  | e :: rest =>
      if String.eqb (Entity.name e) entityName
      then Entity.mk (Entity.name e) (Entity.entityType e)
             (Entity.observations e ++ new) :: rest
      else e :: push_observations entityName new rest
  end.

(** The [observations.map(o => ...)] of [addObservations]: the callback
    mutates the loaded graph and may throw, which abandons the map. *)
Fixpoint add_each (batch : list ObservationItem) (graph : KnowledgeGraph)
    : outcome (list AddedItem * KnowledgeGraph) :=
  match batch with
  | [] => Return ([], graph)
  | o :: rest =>
      match List.find
              (λ e, String.eqb (Entity.name e) (ObservationItem.entityName o))
              (entities graph) with
      | None =>
          Throw (Error ("Entity with name " +:+ ObservationItem.entityName o
                        +:+ " not found"))
      | Some entity =>
          let newObservations :=
            List.filter
              (λ content, negb (array_includes (Entity.observations entity) content))
              (ObservationItem.contents o) in
          let graph :=
            {| entities :=
                 push_observations (ObservationItem.entityName o) newObservations
                   (entities graph);
               relations := relations graph |} in
          match add_each rest graph with
          | Return (results, graph) =>
              Return (AddedItem.mk (ObservationItem.entityName o) newObservations
                        :: results, graph)
          | Throw e => Throw e
          end
      end
  end.

Definition addObservations (batch : list ObservationItem) : M (list AddedItem) :=
  graph ←' loadGraph;
  r ←' lift (add_each batch graph);
  saveGraph (snd r) ;;'
  ret (fst r).

(** [s.includes(sub)] on strings. *)
Fixpoint starts_with (s sub : string) : bool :=
  match sub, s with
  | EmptyString, _ => true
  | String c sub', String d s' => Ascii.eqb c d && starts_with s' sub'
  | String _ _, EmptyString => false
  end.

Fixpoint includes (s sub : string) : bool :=
  starts_with s sub
  || match s with
     | EmptyString => false
     | String _ s' => includes s' sub
     end.

Section Server.

(** [String.prototype.toLowerCase], a builtin of the runtime. *)
Variable toLowerCase : string → string.

Definition entity_matches (query : string) (e : Entity) : bool :=
  includes (toLowerCase (Entity.name e)) (toLowerCase query)
  || includes (toLowerCase (Entity.entityType e)) (toLowerCase query)
  || existsb (λ o, includes (toLowerCase o) (toLowerCase query))
       (Entity.observations e).

Definition searchNodes (query : string) : M KnowledgeGraph :=
  graph ←' loadGraph;
  let filteredEntities := List.filter (entity_matches query) (entities graph) in
  let filteredEntityNames : gset string :=
    list_to_set (Entity.name <$> filteredEntities) in
  let filteredRelations :=
    List.filter
      (λ r, bool_decide (Relation.from r ∈ filteredEntityNames)
            && bool_decide (Relation.to r ∈ filteredEntityNames))
      (relations graph) in
  ret {| entities := filteredEntities; relations := filteredRelations |}.

(** ** ThinkingManager *)

Definition JSON_parse {A} (text : document A) : outcome A :=
  match text with
  | Unparsable => Throw (SyntaxError "Unexpected token in JSON")
  | Parsed value => Return value
  end.

Definition loadThinking : M (gmap string ThoughtChain) :=
  try_catch
    (data ←' readFile thinking_file;
     lift (JSON_parse data))
    (λ error,
       if has_code error "ENOENT" then ret ∅ else throw error).

(** [saveThinking] writes [JSON.stringify(thinking, null, 2)].  The file
    is kept as the document that [JSON.parse] reads back from that text,
    taken to be the map itself: this is so when the map is an object of
    chains whose numbers are all finite and not [-0] ([json_store] below);
    a [NaN] or an infinity would come back as [null], and [-0] as [0]. *)
Definition saveThinking (thinking : gmap string ThoughtChain) : M unit :=
  λ w, (Return tt, set_thinking_file (Content (Parsed thinking)) w).

(** [n.toString(36)] for an integer [n]. *)
Definition digit36 (d : Z) : ascii :=
  ascii_of_nat (Z.to_nat (if d <? 10 then 48 + d else 87 + d)).

Fixpoint to_base36 (fuel : nat) (n : Z) (acc : string) : string :=
  match fuel with
  | O => acc
  | S fuel =>
      let acc := String (digit36 (n mod 36)) acc in
      if n / 36 =? 0 then acc else to_base36 fuel (n / 36) acc
  end.

Definition toString36 (n : Z) : string :=
  if n <? 0
  then "-" +:+ to_base36 (S (Z.to_nat (Z.log2 (- n)))) (- n) ""
  else to_base36 (S (Z.to_nat (Z.log2 n))) n "".

Definition generateId : M string :=
  now ←' Date_now;
  suffix ←' Math_random_toString36_substring2;
  ret (toString36 now +:+ suffix).

(** The own property names of [Object.prototype]: on a plain object, a
    lookup of one of these keys that finds no own property yields the
    inherited member, which is truthy. *)
Definition Object_prototype_keys : list string :=
  ["constructor"; "__defineGetter__"; "__defineSetter__"; "hasOwnProperty";
   "__lookupGetter__"; "__lookupSetter__"; "isPrototypeOf";
   "propertyIsEnumerable"; "toString"; "valueOf"; "__proto__";
   "toLocaleString"]%string.

Inductive property (A : Type) : Type :=
  | Own (value : A)
  | Inherited
  | Undefined.
#[global] Arguments Own {A} value.
#[global] Arguments Inherited {A}.
#[global] Arguments Undefined {A}.

(** [object[key]] on a plain object used as a map. *)
Definition get_property {A} (object : gmap string A) (key : string) : property A :=
  match object !! key with
  | Some value => Own value
  | None =>
      if bool_decide (key ∈ Object_prototype_keys) then Inherited else Undefined
  end.

(** The operand of [x || ...] and [... && x] when [x] is an optional
    string: its value if truthy. *)
Definition nonempty (o : option string) : option string :=
  match o with
  | Some s => if String.eqb s "" then None else Some s
  | None => None
  end.

Definition set_timestamp (input : ThoughtData) (now : Z) : ThoughtData :=
  {| thought := thought input; thoughtNumber := thoughtNumber input;
     totalThoughts := totalThoughts input; isRevision := isRevision input;
     revisesThought := revisesThought input;
     branchFromThought := branchFromThought input; branchId := branchId input;
     needsMoreThoughts := needsMoreThoughts input;
     nextThoughtNeeded := nextThoughtNeeded input; context := context input;
     timestamp := Some now;
     storeInMemory := storeInMemory input;
     retrieveFromMemory := retrieveFromMemory input |}.

Definition set_updatedAt (chain : ThoughtChain) (now : Z) : ThoughtChain :=
  ThoughtChain.mk (ThoughtChain.id chain) (ThoughtChain.context chain)
    (ThoughtChain.thoughts chain) (ThoughtChain.branches chain)
    (ThoughtChain.createdAt chain) now.

Definition set_thoughts (chain : ThoughtChain) (l : list ThoughtData) : ThoughtChain :=
  ThoughtChain.mk (ThoughtChain.id chain) (ThoughtChain.context chain)
    l (ThoughtChain.branches chain)
    (ThoughtChain.createdAt chain) (ThoughtChain.updatedAt chain).

Definition set_branches (chain : ThoughtChain)
    (b : gmap string (list ThoughtData)) : ThoughtChain :=
  ThoughtChain.mk (ThoughtChain.id chain) (ThoughtChain.context chain)
    (ThoughtChain.thoughts chain) b
    (ThoughtChain.createdAt chain) (ThoughtChain.updatedAt chain).

Definition storeThought (input : ThoughtData) : M string :=
  thinking ←' loadThinking;
  let context := default "default"%string (nonempty (context input)) in
  id ←' match nonempty (branchId input) with
        | Some branchId => ret branchId
        | None => generateId
        end;
  thinking ←' match get_property thinking id with
              | Undefined =>
                  createdAt ←' Date_now;
                  updatedAt ←' Date_now;
                  ret (<[id := ThoughtChain.mk id context [] ∅ createdAt updatedAt]>
                         thinking)
              | Own _ | Inherited => ret thinking
              end;
  updatedAt ←' Date_now;
  timestamp ←' Date_now;
  let thoughtWithTimestamp := set_timestamp input timestamp in
  match get_property thinking id with
  | Own chain =>
      let chain := set_updatedAt chain updatedAt in
      chain ←' match (if truthy_opt_number (branchFromThought input)
                      then nonempty (branchId input) else None) with
               | Some branchId =>
                   match get_property (ThoughtChain.branches chain) branchId with
                   | Undefined =>
                       ret (set_branches chain
                              (<[branchId := [thoughtWithTimestamp]]>
                                 (ThoughtChain.branches chain)))
                   | Own branch =>
                       ret (set_branches chain
                              (<[branchId := branch ++ [thoughtWithTimestamp]]>
                                 (ThoughtChain.branches chain)))
                   | Inherited =>
                       throw (TypeError
                                "chain.branches[input.branchId].push is not a function")
                   end
               | None =>
                   ret (set_thoughts chain
                          (ThoughtChain.thoughts chain ++ [thoughtWithTimestamp]))
               end;
      saveThinking (<[id := chain]> thinking) ;;'
      ret id
  | Inherited | Undefined =>
      throw (TypeError "Cannot read properties of undefined")
  end.

(** ** MemoryThinkingManager *)

(** [validateInput] on an object: the four guards in source order.  Past
    them the four fields have the asserted types, which the final match
    reads off.  (An input that is [undefined] or [null] is treated with
    the call that can produce it, [call_memory_thinking] below.) *)
Definition validateInput (data : RawInput) : outcome MemoryThinkingInput :=
  if negb (truthy (raw_thought data))
     || negb (String.eqb (typeof (raw_thought data)) "string")
  then Throw (Error "Invalid thought: must be a string")
  else if negb (truthy (raw_thoughtNumber data))
          || negb (String.eqb (typeof (raw_thoughtNumber data)) "number")
  then Throw (Error "Invalid thoughtNumber: must be a number")
  else if negb (truthy (raw_totalThoughts data))
          || negb (String.eqb (typeof (raw_totalThoughts data)) "number")
  then Throw (Error "Invalid totalThoughts: must be a number")
  else if negb (String.eqb (typeof (raw_nextThoughtNeeded data)) "boolean")
  then Throw (Error "Invalid nextThoughtNeeded: must be a boolean")
  else
    match raw_thought data, raw_thoughtNumber data, raw_totalThoughts data,
          raw_nextThoughtNeeded data with
    | JString thought, JNumber thoughtNumber, JNumber totalThoughts,
      JBoolean nextThoughtNeeded =>
        Return
          {| thought := thought; thoughtNumber := thoughtNumber;
             totalThoughts := totalThoughts;
             isRevision := raw_isRevision data;
             revisesThought := raw_revisesThought data;
             branchFromThought := raw_branchFromThought data;
             branchId := raw_branchId data;
             needsMoreThoughts := raw_needsMoreThoughts data;
             nextThoughtNeeded := nextThoughtNeeded;
             context := raw_context data;
             timestamp := raw_timestamp data;
             storeInMemory := raw_storeInMemory data;
             retrieveFromMemory := raw_retrieveFromMemory data |}
    | _, _, _, _ => Throw (TypeError "input is not a MemoryThinkingInput")
    end.

Definition set_totalThoughts (input : MemoryThinkingInput) (n : number)
    : MemoryThinkingInput :=
  {| thought := thought input; thoughtNumber := thoughtNumber input;
     totalThoughts := n; isRevision := isRevision input;
     revisesThought := revisesThought input;
     branchFromThought := branchFromThought input; branchId := branchId input;
     needsMoreThoughts := needsMoreThoughts input;
     nextThoughtNeeded := nextThoughtNeeded input; context := context input;
     timestamp := timestamp input;
     storeInMemory := storeInMemory input;
     retrieveFromMemory := retrieveFromMemory input |}.

(** [if (input.thoughtNumber > input.totalThoughts)
      input.totalThoughts = input.thoughtNumber]. *)
Definition widen_totalThoughts (input : MemoryThinkingInput) : MemoryThinkingInput :=
  if number_gt (thoughtNumber input) (totalThoughts input)
  then set_totalThoughts input (thoughtNumber input)
  else input.

(** The object that the success branch serialises. *)
Record ContextCounts : Type := {
  entities_count : nat;
  relations_count : nat
}.

Record ThoughtResult : Type := {
  result_thoughtNumber : number;
  result_totalThoughts : number;
  result_nextThoughtNeeded : bool;
  thoughtChainId : string;
  relevantContext : option ContextCounts;
  contextStored : bool
}.

(** The [text] of the single content item, before [JSON.stringify]. *)
Inductive payload : Type :=
  | ResultText (result : ThoughtResult)
  | FailureText (error : string) (status : string).

Record Response : Type := {
  content : payload;
  isError : option bool
}.

(** [processThought]; the [console.error] of the formatted thought writes
    to neither file and is left out. *)
Definition processThought (data : RawInput) : M Response :=
  try_catch
    (input ←' lift (validateInput data);
     let input := widen_totalThoughts input in
     relevantContext ←'
       match (if truthy_opt_bool (retrieveFromMemory input)
              then nonempty (context input) else None) with
       | Some context =>
           graph ←' searchNodes context;
           ret (Some graph)
       | None => ret None
       end;
     thoughtChainId ←' storeThought input;
     match (if truthy_opt_bool (storeInMemory input)
            then nonempty (context input) else None) with
     | Some context =>
         createEntities
           [Entity.mk context "ThoughtContext" [thought input]] ;;'
         createRelations
           [Relation.mk context ("ThoughtChain_" +:+ thoughtChainId)
              "has_thinking_process"] ;;'
         ret tt
     | None => ret tt
     end ;;'
     ret {| content :=
              ResultText
                {| result_thoughtNumber := thoughtNumber input;
                   result_totalThoughts := totalThoughts input;
                   result_nextThoughtNeeded := nextThoughtNeeded input;
                   thoughtChainId := thoughtChainId;
                   relevantContext :=
                     match relevantContext with
                     | Some graph =>
                         Some {| entities_count := length (entities graph);
                                 relations_count := length (relations graph) |}
                     | None => None
                     end;
                   contextStored :=
                     match storeInMemory input with
                     | Some true => true
                     | Some false | None => false
                     end |};
            isError := None |})
    (λ error,
       ret {| content := FailureText (error_message error) "failed";
              isError := Some true |}).

End Server.

(** A lower-casing of the ASCII letters, to run the search on examples. *)
Fixpoint ascii_toLowerCase (s : string) : string :=
  match s with
  | EmptyString => EmptyString
  | String c rest =>
      let n := nat_of_ascii c in
      String (if (65 <=? n)%nat && (n <=? 90)%nat then ascii_of_nat (n + 32) else c)
        (ascii_toLowerCase rest)
  end.

(** * Properties *)

(** ** Computations *)

Lemma bind_Return {A B} (m : M A) (k : A → M B) w a w' :
  m w = (Return a, w') → bind m k w = k a w'.
Proof. intros H. unfold bind. now rewrite H. Qed.

Lemma bind_Throw {A B} (m : M A) (k : A → M B) w e w' :
  m w = (Throw e, w') → bind m k w = (Throw e, w').
Proof. intros H. unfold bind. now rewrite H. Qed.

Lemma bind_inv {A B} (m : M A) (k : A → M B) w b w' :
  bind m k w = (Return b, w') →
  ∃ a w1, m w = (Return a, w1) ∧ k a w1 = (Return b, w').
Proof.
  unfold bind. destruct (m w) as [[a|e] w1]; [eauto | discriminate].
Qed.

(** ** Graph Store *)

Definition graph_lines (graph : KnowledgeGraph) : list line :=
  (EntityLine <$> entities graph) ++ (RelationLine <$> relations graph).

Definition entity_names (graph : KnowledgeGraph) : list string :=
  Entity.name <$> entities graph.

(** Loading reads only. *)
Lemma loadGraph_world w : snd (loadGraph w) = w.
Proof.
  unfold loadGraph, try_catch, bind, readFile, lift, ret, throw.
  destruct (memory_file w) as [|code|data]; simpl.
  - reflexivity.
  - destruct (String.eqb code "ENOENT"); reflexivity.
  - destruct (reduce_lines _ _) as [graph|e]; simpl; [reflexivity|].
    destruct (has_code e "ENOENT"); reflexivity.
Qed.

Lemma loadGraph_NoFile w :
  memory_file w = NoFile → loadGraph w = (Return empty_graph, w).
Proof.
  intros H. unfold loadGraph, try_catch, bind, readFile. now rewrite H.
Qed.

Lemma reduce_lines_saved es rs graph :
  reduce_lines
    (List.filter (λ l, negb (is_blank l)) ((EntityLine <$> es) ++ (RelationLine <$> rs)))
    graph
  = Return {| entities := entities graph ++ es; relations := relations graph ++ rs |}.
Proof.
  revert graph. induction es as [|e es IH]; intros graph; simpl.
  - revert graph. induction rs as [|r rs IHr]; intros graph; simpl.
    + destruct graph; simpl. now rewrite !app_nil_r.
    + rewrite IHr. simpl. now rewrite <- !app_assoc.
  - rewrite IH. simpl. now rewrite <- !app_assoc.
Qed.

(** What [saveGraph] wrote is what the next [loadGraph] reads. *)
Lemma loadGraph_saved graph w :
  loadGraph (set_memory_file (Content (graph_lines graph)) w)
  = (Return graph, set_memory_file (Content (graph_lines graph)) w).
Proof.
  unfold loadGraph, try_catch, bind, readFile, lift, graph_lines. simpl.
  rewrite reduce_lines_saved. simpl. now destruct graph.
Qed.

Lemma find_name_None (n : string) (es : list Entity) :
  List.find (λ e, String.eqb (Entity.name e) n) es = None
  ↔ n ∉ (Entity.name <$> es).
Proof.
  induction es as [|e es IH]; simpl.
  - split; [intros _; apply not_elem_of_nil | reflexivity].
  - destruct (String.eqb_spec (Entity.name e) n) as [->|Hne].
    + split; [discriminate | intros H; exfalso; apply H; left].
    + rewrite IH, not_elem_of_cons.
      split; [intros H; split; [congruence | exact H] | intros [_ H]; exact H].
Qed.

Lemma existsb_name_false (n : string) (es : list Entity) :
  existsb (λ existingEntity, String.eqb (Entity.name existingEntity) n) es = false
  ↔ n ∉ (Entity.name <$> es).
Proof.
  induction es as [|e es IH]; simpl.
  - split; [intros _; apply not_elem_of_nil | reflexivity].
  - rewrite orb_false_iff, IH, not_elem_of_cons.
    destruct (String.eqb_spec (Entity.name e) n) as [->|Hne].
    + split; [intros [? _]; discriminate | intros [H _]; now destruct H].
    + split; [intros [_ H]; split; [congruence | exact H] | intros [_ H]; now split].
Qed.

Lemma push_observations_names n new es :
  Entity.name <$> push_observations n new es = Entity.name <$> es.
Proof.
  induction es as [|e es IH]; [reflexivity|].
  cbn [push_observations].
  destruct (String.eqb (Entity.name e) n); rewrite !fmap_cons; [reflexivity|].
  now f_equal.
Qed.

Lemma add_each_unknown batch graph :
  (∃ o, o ∈ batch ∧ ObservationItem.entityName o ∉ entity_names graph) →
  ∃ o, o ∈ batch ∧ (ObservationItem.entityName o ∉ entity_names graph) ∧
       add_each batch graph
       = Throw (Error ("Entity with name " +:+ ObservationItem.entityName o
                       +:+ " not found")).
Proof.
  revert graph. induction batch as [|o batch IH]; intros graph (x & Hx & Hn).
  - now apply elem_of_nil in Hx.
  - cbn [add_each].
    destruct (List.find _ (entities graph)) as [entity|] eqn:Hfind.
    + assert (x ∈ batch) as Hrest.
      { apply elem_of_cons in Hx as [->|Hx]; [|exact Hx].
        apply find_name_None in Hn. congruence. }
      match goal with
      | |- context [add_each batch ?g] => destruct (IH g) as (y & Hy & Hyn & Hthrow)
      end.
      { exists x. split; [exact Hrest|].
        unfold entity_names in *. simpl. now rewrite push_observations_names. }
      exists y. split; [now right|]. split.
      * unfold entity_names in *. simpl in Hyn.
        now rewrite push_observations_names in Hyn.
      * now rewrite Hthrow.
    + exists o. split; [now left|]. split; [|reflexivity].
      now apply find_name_None.
Qed.

(** C4. Whenever a batch names an entity that the loaded graph does not
    contain, [addObservations] throws the "Entity with name ... not found"
    error for such an item and leaves the world, hence the graph file, as
    it was: nothing of the items before the failing one is written. *)
Theorem addObservations_unknown_entity batch w graph :
  loadGraph w = (Return graph, w) →
  (∃ o, o ∈ batch ∧ ObservationItem.entityName o ∉ entity_names graph) →
  ∃ o, o ∈ batch ∧ (ObservationItem.entityName o ∉ entity_names graph) ∧
       addObservations batch w
       = (Throw (Error ("Entity with name " +:+ ObservationItem.entityName o
                        +:+ " not found")), w).
Proof.
  intros Hload Hmissing.
  destruct (add_each_unknown batch graph Hmissing) as (o & Ho & Hn & Hthrow).
  exists o. split; [exact Ho|]. split; [exact Hn|].
  unfold addObservations.
  rewrite (bind_Return _ _ _ _ _ Hload).
  apply bind_Throw. unfold lift. now rewrite Hthrow.
Qed.

(** C5. A candidate whose name is new is returned and stored by
    [createEntities]; a second call with a candidate of that name (the same
    one in particular) returns the empty sequence and rewrites the file
    with the same content, so the stored entity keeps its type and
    observations. *)
Theorem createEntities_fresh_then_duplicate (c : Entity) w graph :
  loadGraph w = (Return graph, w) →
  Entity.name c ∉ entity_names graph →
  ∃ w1,
    createEntities [c] w = (Return [c], w1) ∧
    loadGraph w1
    = (Return {| entities := entities graph ++ [c]; relations := relations graph |},
       w1) ∧
    ∀ c', Entity.name c' = Entity.name c → createEntities [c'] w1 = (Return [], w1).
Proof.
  intros Hload Hfresh.
  set (graph1 := {| entities := entities graph ++ [c]; relations := relations graph |}).
  exists (set_memory_file (Content (graph_lines graph1)) w).
  split; [|split].
  - unfold createEntities. rewrite (bind_Return _ _ _ _ _ Hload).
    cbn [List.filter].
    apply existsb_name_false in Hfresh. rewrite Hfresh. reflexivity.
  - apply loadGraph_saved.
  - intros c' Hname. unfold createEntities.
    rewrite (bind_Return _ _ _ _ _ (loadGraph_saved graph1 w)).
    cbn [List.filter].
    assert (existsb
              (λ existingEntity,
                 String.eqb (Entity.name existingEntity) (Entity.name c'))
              (entities graph1) = true) as ->.
    { apply existsb_exists. exists c. split.
      - subst graph1. simpl. apply in_or_app. right. now left.
      - rewrite Hname. apply String.eqb_refl. }
    cbn. unfold saveGraph, ret, bind, graph_lines. simpl.
    now rewrite app_nil_r.
Qed.

(** ** Substring search *)

Definition is_substring (sub s : string) : Prop :=
  ∃ pre post, s = pre +:+ sub +:+ post.

Lemma starts_with_spec s sub :
  starts_with s sub = true ↔ ∃ post, s = sub +:+ post.
Proof.
  revert s. induction sub as [|c sub IH]; intros s.
  - destruct s; simpl; split; eauto.
  - destruct s as [|d s]; simpl.
    + split; [discriminate | intros [post H]; discriminate].
    + rewrite andb_true_iff, IH. split.
      * intros [Hc [post ->]]. apply Ascii.eqb_eq in Hc as ->. eauto.
      * intros [post H]. injection H as -> ->.
        split; [apply Ascii.eqb_refl | eauto].
Qed.

Lemma includes_spec s sub : includes s sub = true ↔ is_substring sub s.
Proof.
  unfold is_substring. induction s as [|d s IH]; cbn [includes].
  - rewrite orb_false_r, starts_with_spec. split.
    + intros [post H]. exists ""%string, post. exact H.
    + intros (pre & post & H). destruct pre; [|discriminate].
      exists post. exact H.
  - rewrite orb_true_iff, starts_with_spec, IH. split.
    + intros [[post H]|(pre & post & H)].
      * exists ""%string, post. exact H.
      * exists (String d pre), post. simpl. now rewrite H.
    + intros (pre & post & H). destruct pre as [|c pre].
      * left. exists post. exact H.
      * right. simpl in H. injection H as _ ->. eauto.
Qed.

Lemma entity_matches_spec toLowerCase (q : string) (e : Entity) :
  entity_matches toLowerCase q e = true
  ↔ is_substring (toLowerCase q) (toLowerCase (Entity.name e))
    ∨ is_substring (toLowerCase q) (toLowerCase (Entity.entityType e))
    ∨ ∃ o, o ∈ Entity.observations e
           ∧ is_substring (toLowerCase q) (toLowerCase o).
Proof.
  unfold entity_matches.
  rewrite !orb_true_iff, !includes_spec, existsb_exists.
  split.
  - intros [[H|H]|(o & Hin & H)]; [now left | now right; left |].
    right; right. exists o. split; [now apply list_elem_of_In|].
    now apply includes_spec.
  - intros [H|[H|(o & Hin & H)]]; [now left; left | now left; right |].
    right. exists o. split; [now apply list_elem_of_In|].
    now apply includes_spec.
Qed.

(** C7. On a graph that loads, [searchNodes q] returns exactly the
    entities in which the lower-cased query is a substring of the
    lower-cased name, type or of one lower-cased observation, and exactly
    the relations of the graph whose two endpoints are names of returned
    entities; the files are not written. *)
Theorem searchNodes_induced_subgraph toLowerCase (q : string) w graph :
  loadGraph w = (Return graph, w) →
  ∃ found,
    searchNodes toLowerCase q w = (Return found, w) ∧
    (∀ e, e ∈ entities found ↔
          e ∈ entities graph ∧
          (is_substring (toLowerCase q) (toLowerCase (Entity.name e))
           ∨ is_substring (toLowerCase q) (toLowerCase (Entity.entityType e))
           ∨ ∃ o, o ∈ Entity.observations e
                  ∧ is_substring (toLowerCase q) (toLowerCase o))) ∧
    (∀ r, r ∈ relations found ↔
          r ∈ relations graph
          ∧ Relation.from r ∈ entity_names found
          ∧ Relation.to r ∈ entity_names found).
Proof.
  intros Hload. unfold searchNodes.
  rewrite (bind_Return _ _ _ _ _ Hload). unfold ret.
  eexists. split; [reflexivity|]. cbn [entities relations]. split.
  - intros e.
    rewrite list_elem_of_In, filter_In, <- list_elem_of_In.
    now rewrite entity_matches_spec.
  - intros r. unfold entity_names. cbn [entities].
    rewrite list_elem_of_In, filter_In, <- list_elem_of_In.
    rewrite andb_true_iff, !bool_decide_eq_true, !elem_of_list_to_set.
    reflexivity.
Qed.

(** ** Chain Store *)

Lemma loadThinking_world w : snd (loadThinking w) = w.
Proof.
  unfold loadThinking, try_catch, bind, readFile, lift, ret, throw.
  destruct (thinking_file w) as [|code|[|thinking]]; simpl; try reflexivity.
  destruct (String.eqb code "ENOENT"); reflexivity.
Qed.

Lemma loadThinking_NoFile w :
  thinking_file w = NoFile → loadThinking w = (Return ∅, w).
Proof.
  intros H. unfold loadThinking, try_catch, bind, readFile. now rewrite H.
Qed.

Lemma loadThinking_Parsed w thinking :
  thinking_file w = Content (Parsed thinking) →
  loadThinking w = (Return thinking, w).
Proof.
  intros H. unfold loadThinking, try_catch, bind, readFile. now rewrite H.
Qed.

Lemma get_property_plain {A} (object : gmap string A) key :
  key ∉ Object_prototype_keys →
  get_property object key
  = match object !! key return property A with
    | Some v => Own v
    | None => Undefined
    end.
Proof.
  intros H. unfold get_property. destruct (object !! key); [reflexivity|].
  now rewrite bool_decide_eq_false_2.
Qed.

(** The identifier [input.branchId || this.generateId()] and the world
    after its evaluation. *)
Definition chain_id_of (input : ThoughtData) (w : World) : string :=
  match nonempty (branchId input) with
  | Some branchId => branchId
  | None => toString36 (clock w (clock_reads w)) +:+ random w (random_reads w)
  end.

Definition after_id (input : ThoughtData) (w : World) : World :=
  match nonempty (branchId input) with
  | Some _ => w
  | None => draw (tick w)
  end.

(** The chain that the append works on, stored or just created, and the
    world at that point. *)
Definition chain_before (input : ThoughtData) (thinking : gmap string ThoughtChain)
    (w : World) : ThoughtChain :=
  let id := chain_id_of input w in
  let w1 := after_id input w in
  match thinking !! id with
  | Some chain => chain
  | None =>
      ThoughtChain.mk id (default "default"%string (nonempty (context input))) [] ∅
        (clock w (clock_reads w1)) (clock w (S (clock_reads w1)))
  end.

Definition after_create (input : ThoughtData) (thinking : gmap string ThoughtChain)
    (w : World) : World :=
  match thinking !! chain_id_of input w with
  | Some _ => after_id input w
  | None => tick (tick (after_id input w))
  end.

(** The branch that the routing test selects, if any. *)
Definition routed_branch (input : ThoughtData) : option string :=
  if truthy_opt_number (branchFromThought input)
  then nonempty (branchId input) else None.

Definition append_to (chain : ThoughtChain) (route : option string)
    (t : ThoughtData) : ThoughtChain :=
  match route with
  | Some b =>
      set_branches chain
        (<[b := default [] (ThoughtChain.branches chain !! b) ++ [t]]>
           (ThoughtChain.branches chain))
  | None => set_thoughts chain (ThoughtChain.thoughts chain ++ [t])
  end.

Lemma routed_branch_id input w b :
  routed_branch input = Some b → chain_id_of input w = b.
Proof.
  unfold routed_branch, chain_id_of.
  destruct (truthy_opt_number _); [|discriminate]. now intros ->.
Qed.

Lemma get_property_not_Inherited {A} (object : gmap string A) key :
  get_property object key ≠ Inherited →
  get_property object key
  = match object !! key return property A with
    | Some v => Own v
    | None => Undefined
    end.
Proof.
  unfold get_property. destruct (object !! key); [reflexivity|].
  destruct (bool_decide _); congruence.
Qed.

(** The two lookups of [storeThought] find no inherited member. *)
Definition lookups_plain (input : ThoughtData) (thinking : gmap string ThoughtChain)
    (w : World) : Prop :=
  get_property thinking (chain_id_of input w) ≠ Inherited
  ∧ ∀ b, routed_branch input = Some b →
         get_property (ThoughtChain.branches (chain_before input thinking w)) b
         ≠ Inherited.

Lemma lookups_plain_intro input thinking w :
  chain_id_of input w ∉ Object_prototype_keys → lookups_plain input thinking w.
Proof.
  intros Hplain. split.
  - rewrite (get_property_plain _ _ Hplain). now destruct (thinking !! _).
  - intros b Hb. rewrite (routed_branch_id input w b Hb) in Hplain.
    rewrite (get_property_plain _ _ Hplain). now destruct (_ !! b).
Qed.

(** The state that a successful [storeThought] leaves. *)
Definition stored_chain (input : ThoughtData) (thinking : gmap string ThoughtChain)
    (w : World) : ThoughtChain :=
  let w2 := after_create input thinking w in
  append_to (set_updatedAt (chain_before input thinking w)
               (clock w (clock_reads w2)))
    (routed_branch input)
    (set_timestamp input (clock w (S (clock_reads w2)))).

Definition after_store (input : ThoughtData) (thinking : gmap string ThoughtChain)
    (w : World) : World :=
  set_thinking_file
    (Content (Parsed (<[chain_id_of input w := stored_chain input thinking w]> thinking)))
    (tick (tick (after_create input thinking w))).

Lemma resolve_id input w :
  (match nonempty (branchId input) with
   | Some branchId => ret branchId
   | None => generateId
   end) w = (Return (chain_id_of input w), after_id input w).
Proof.
  unfold after_id, chain_id_of. now destruct (nonempty (branchId input)).
Qed.

Lemma after_id_clock input w : clock (after_id input w) = clock w.
Proof. unfold after_id. now destruct (nonempty (branchId input)). Qed.

(** One run of [storeThought] on a chain file that loads, when no lookup
    hits an inherited member. *)
Lemma storeThought_run input w thinking :
  loadThinking w = (Return thinking, w) →
  lookups_plain input thinking w →
  storeThought input w = (Return (chain_id_of input w), after_store input thinking w).
Proof.
  intros Hload [Hchain Hbranch].
  unfold after_store, stored_chain.
  set (id := chain_id_of input w) in *.
  unfold storeThought. rewrite (bind_Return _ _ _ _ _ Hload).
  rewrite (bind_Return _ _ _ _ _ (resolve_id input w)). fold id.
  pose proof (after_id_clock input w) as Hclock.
  pose proof (routed_branch_id input w) as Hroute. fold id in Hroute.
  rewrite (get_property_not_Inherited thinking id Hchain).
  revert Hbranch. unfold chain_before, after_create. fold id.
  set (w1 := after_id input w) in *.
  destruct (thinking !! id) as [stored|] eqn:Hstored; intros Hbranch.
  - unfold bind at 1. cbn [ret].
    unfold bind at 1. cbn [Date_now]. unfold bind at 1. cbn [Date_now].
    rewrite (get_property_not_Inherited thinking id Hchain), Hstored.
    fold (routed_branch input).
    destruct (routed_branch input) as [b|] eqn:Hb.
    + specialize (Hroute b eq_refl). subst b.
      cbn [set_updatedAt ThoughtChain.branches].
      rewrite (get_property_not_Inherited _ id (Hbranch id eq_refl)).
      destruct (ThoughtChain.branches stored !! id) as [branch|] eqn:Hbr;
        unfold bind, ret, saveThinking, append_to;
        cbn [set_updatedAt ThoughtChain.branches tick clock clock_reads default];
        rewrite Hbr, !Hclock; reflexivity.
    + unfold bind, ret, saveThinking, append_to.
      cbn [tick clock clock_reads]. rewrite !Hclock. reflexivity.
  - unfold bind at 1. unfold bind at 1. cbn [Date_now].
    unfold bind at 1. cbn [Date_now ret].
    unfold bind at 1. cbn [Date_now]. unfold bind at 1. cbn [Date_now].
    unfold get_property at 1. rewrite lookup_insert_eq.
    fold (routed_branch input).
    destruct (routed_branch input) as [b|] eqn:Hb.
    + specialize (Hroute b eq_refl). subst b.
      specialize (Hbranch id eq_refl). cbn [ThoughtChain.branches] in Hbranch.
      cbn [set_updatedAt ThoughtChain.branches].
      rewrite (get_property_not_Inherited _ id Hbranch), lookup_empty.
      unfold bind, ret, saveThinking, append_to.
      cbn [set_updatedAt ThoughtChain.branches tick clock clock_reads default].
      rewrite lookup_empty, !Hclock, insert_insert_eq. reflexivity.
    + unfold bind, ret, saveThinking, append_to.
      cbn [tick clock clock_reads]. rewrite !Hclock, insert_insert_eq. reflexivity.
Qed.

(** A [storeThought] that returns has loaded the chain file and met no
    inherited member. *)
Lemma storeThought_inv input w id' w' :
  storeThought input w = (Return id', w') →
  ∃ thinking,
    loadThinking w = (Return thinking, w) ∧ lookups_plain input thinking w.
Proof.
  intros H.
  destruct (loadThinking w) as [[thinking|e] w1] eqn:Hload.
  2:{ unfold storeThought in H. rewrite (bind_Throw _ _ _ _ _ Hload) in H.
      discriminate. }
  pose proof (loadThinking_world w) as Hw. rewrite Hload in Hw.
  simpl in Hw. subst w1.
  exists thinking. split; [reflexivity|].
  unfold storeThought in H. rewrite (bind_Return _ _ _ _ _ Hload) in H.
  rewrite (bind_Return _ _ _ _ _ (resolve_id input w)) in H.
  pose proof (routed_branch_id input w) as Hroute.
  unfold lookups_plain, chain_before.
  set (id := chain_id_of input w) in *.
  fold (routed_branch input) in H.
  unfold get_property at 1 2 in H. unfold get_property at 1.
  destruct (thinking !! id) as [stored|] eqn:Hstored.
  - split; [discriminate|]. intros b Hb.
    specialize (Hroute b Hb). subst b. rewrite Hb in H.
    unfold bind at 1 in H. cbn [ret] in H.
    unfold bind at 1 in H. cbn [Date_now] in H.
    unfold bind at 1 in H. cbn [Date_now] in H.
    rewrite Hstored in H.
    cbn [set_updatedAt ThoughtChain.branches] in H.
    intros Hinh. rewrite Hinh in H. discriminate.
  - destruct (bool_decide (id ∈ Object_prototype_keys)) eqn:Hproto.
    + unfold bind at 1 in H. cbn [ret] in H.
      unfold bind at 1 in H. cbn [Date_now] in H.
      unfold bind at 1 in H. cbn [Date_now] in H.
      rewrite Hstored in H. discriminate.
    + split; [discriminate|]. intros b Hb.
      specialize (Hroute b Hb). subst b. rewrite Hb in H.
      cbn [ThoughtChain.branches].
      unfold get_property. rewrite lookup_empty, Hproto. discriminate.
Qed.

Lemma after_create_reads input thinking w :
  (clock_reads w ≤ clock_reads (after_create input thinking w))%nat.
Proof.
  unfold after_create, after_id.
  destruct (thinking !! _), (nonempty (branchId input)); simpl; lia.
Qed.

Lemma after_create_memory input thinking w :
  memory_file (after_create input thinking w) = memory_file w.
Proof.
  unfold after_create, after_id.
  now destruct (thinking !! _), (nonempty (branchId input)).
Qed.


Lemma nonempty_Some (b : string) : b ≠ ""%string → nonempty (Some b) = Some b.
Proof.
  intros Hb. unfold nonempty. destruct (String.eqb_spec b ""); congruence.
Qed.

Lemma nonempty_inv (o : option string) b :
  nonempty o = Some b → o = Some b ∧ b ≠ ""%string.
Proof.
  unfold nonempty. destruct o as [s|]; [|discriminate].
  destruct (String.eqb_spec s ""); [discriminate|]. now intros [= ->].
Qed.

Lemma nonempty_None (o : option string) :
  nonempty o = None ↔ o = None ∨ o = Some ""%string.
Proof.
  unfold nonempty. destruct o as [s|]; [|now split; [left|]].
  destruct (String.eqb_spec s "") as [->|Hs].
  - split; [now right | reflexivity].
  - split; [discriminate | intros [?|[= ?]]; congruence].
Qed.

Lemma positive_integer_truthy n :
  is_positive_integer n = true → truthy_number n = true.
Proof. now destruct n as [| | |[]]. Qed.

Lemma routed_branch_present input b :
  is_Some (branchFromThought input) →
  (∀ n, branchFromThought input = Some n → is_positive_integer n = true) →
  branchId input = Some b → b ≠ ""%string →
  routed_branch input = Some b.
Proof.
  intros [n Hn] Hschema Hb Hne. unfold routed_branch.
  rewrite Hn, Hb. cbn [truthy_opt_number].
  rewrite (positive_integer_truthy n (Hschema n Hn)).
  now apply nonempty_Some.
Qed.

Lemma routed_branch_absent input :
  ¬ (is_Some (branchFromThought input)
     ∧ ∃ b, branchId input = Some b ∧ b ≠ ""%string) →
  routed_branch input = None.
Proof.
  intros Hnot. unfold routed_branch.
  destruct (branchFromThought input) as [n|]; [|reflexivity].
  destruct (truthy_opt_number (Some n)); [|reflexivity].
  destruct (nonempty (branchId input)) as [b|] eqn:Hb; [|reflexivity].
  exfalso. apply Hnot. split; [eauto|].
  exists b. now apply nonempty_inv.
Qed.

Lemma chain_before_cases input thinking w :
  thinking !! chain_id_of input w = Some (chain_before input thinking w)
  ∨ thinking !! chain_id_of input w = None
    ∧ ThoughtChain.id (chain_before input thinking w) = chain_id_of input w
    ∧ ThoughtChain.thoughts (chain_before input thinking w) = []
    ∧ ThoughtChain.branches (chain_before input thinking w) = ∅.
Proof.
  unfold chain_before. destruct (thinking !! chain_id_of input w); [now left|].
  right. repeat split.
Qed.

(** ** What the chain file keeps of a number

    [JSON.stringify] writes a finite number other than [-0] as a literal
    that [JSON.parse] reads back as the same number; it writes [NaN] and
    the infinities as [null], and [-0] as [0].  [saveThinking] above keeps
    the document as the map it was given: that is the document read back
    from the file when every number in the map is kept by the round trip,
    which the statements about the written file assume of the stored
    chains ([json_store]) and of the appended thought ([json_thought]). *)
Definition json_number (n : number) : bool :=
  match n with
  | S754_zero s => negb s
  | S754_finite _ _ _ => true
  | S754_infinity _ | S754_nan => false
  end.

Definition json_thought (t : ThoughtData) : bool :=
  json_number (thoughtNumber t) && json_number (totalThoughts t)
  && from_option json_number true (revisesThought t)
  && from_option json_number true (branchFromThought t).

Definition json_chain (chain : ThoughtChain) : Prop :=
  Forall (λ t, json_thought t = true) (ThoughtChain.thoughts chain)
  ∧ map_Forall (λ _ ts, Forall (λ t, json_thought t = true) ts)
      (ThoughtChain.branches chain).

Definition json_store (thinking : gmap string ThoughtChain) : Prop :=
  map_Forall (λ _ chain, json_chain chain) thinking.

(** X28. On a chain file that is absent or holds a JSON object of chains
    whose numbers are all finite and not [-0], for a thought with such
    numbers, an identifier (the non-empty [branchId], or else the
    generated one) that is no member name of [Object.prototype], and a
    [branchFromThought] that is, when given, an integer [>= 1]: the append
    returns the identifier and rewrites its chain (the stored one, or a
    new one with no thought and no branch).  [updatedAt] is the
    second-to-last clock value the call reads, and the appended thought is
    the input with [timestamp] set to the last one.  When
    [branchFromThought] and a non-empty [branchId] are both given, the
    stamped thought goes to the end of [branches[branchId]] (of the empty
    sequence if that branch is new) and [thoughts] is unchanged; otherwise
    it goes to the end of [thoughts] and [branches] is unchanged. *)
Theorem storeThought_routing input w thinking :
  loadThinking w = (Return thinking, w) →
  json_store thinking →
  json_thought input = true →
  chain_id_of input w ∉ Object_prototype_keys →
  (∀ n, branchFromThought input = Some n → is_positive_integer n = true) →
  ∃ chain chain' k w',
    storeThought input w = (Return (chain_id_of input w), w') ∧
    thinking_file w'
    = Content (Parsed (<[chain_id_of input w := chain']> thinking)) ∧
    (thinking !! chain_id_of input w = Some chain
     ∨ thinking !! chain_id_of input w = None
       ∧ ThoughtChain.thoughts chain = [] ∧ ThoughtChain.branches chain = ∅) ∧
    (clock_reads w ≤ k)%nat ∧ clock_reads w' = S (S k) ∧
    ThoughtChain.updatedAt chain' = clock w k ∧
    (∀ b, is_Some (branchFromThought input) →
          branchId input = Some b → b ≠ ""%string →
          ThoughtChain.branches chain'
          = <[b := default [] (ThoughtChain.branches chain !! b)
                   ++ [set_timestamp input (clock w (S k))]]>
              (ThoughtChain.branches chain)
          ∧ ThoughtChain.thoughts chain' = ThoughtChain.thoughts chain) ∧
    (¬ (is_Some (branchFromThought input)
        ∧ ∃ b, branchId input = Some b ∧ b ≠ ""%string) →
     ThoughtChain.thoughts chain'
     = ThoughtChain.thoughts chain ++ [set_timestamp input (clock w (S k))]
     ∧ ThoughtChain.branches chain' = ThoughtChain.branches chain).
Proof.
  intros Hload _ _ Hplain Hschema.
  exists (chain_before input thinking w), (stored_chain input thinking w),
    (clock_reads (after_create input thinking w)),
    (after_store input thinking w).
  split; [apply storeThought_run; [exact Hload | now apply lookups_plain_intro]|].
  split; [reflexivity|]. split.
  { destruct (chain_before_cases input thinking w) as [H|(H & _ & Ht & Hb)];
      [now left | now right]. }
  split; [apply after_create_reads|].
  split; [reflexivity|].
  split.
  { unfold stored_chain, append_to. now destruct (routed_branch input). }
  split.
  - intros b Hbft Hb Hne. unfold stored_chain.
    now rewrite (routed_branch_present input b Hbft Hschema Hb Hne).
  - intros Hnot. unfold stored_chain.
    now rewrite (routed_branch_absent input Hnot).
Qed.

(** C10. An append to a chain that the file already holds (under an
    identifier that is no member of [Object.prototype]) keeps the chain's
    [id], [context] and [createdAt], whatever context the request carries;
    it extends either [thoughts] or one branch by the stamped thought and
    leaves the other sequences as they were; every other chain of the map,
    and the graph file, are unchanged. *)
Theorem storeThought_existing_chain_frame input w thinking chain :
  loadThinking w = (Return thinking, w) →
  thinking !! chain_id_of input w = Some chain →
  chain_id_of input w ∉ Object_prototype_keys →
  ∃ chain' t w',
    storeThought input w = (Return (chain_id_of input w), w') ∧
    thinking_file w'
    = Content (Parsed (<[chain_id_of input w := chain']> thinking)) ∧
    memory_file w' = memory_file w ∧
    ThoughtChain.id chain' = ThoughtChain.id chain ∧
    ThoughtChain.context chain' = ThoughtChain.context chain ∧
    ThoughtChain.createdAt chain' = ThoughtChain.createdAt chain ∧
    (ThoughtChain.thoughts chain' = ThoughtChain.thoughts chain ++ [t]
     ∧ ThoughtChain.branches chain' = ThoughtChain.branches chain
     ∨ ThoughtChain.thoughts chain' = ThoughtChain.thoughts chain
       ∧ ∃ b, ThoughtChain.branches chain'
              = <[b := default [] (ThoughtChain.branches chain !! b) ++ [t]]>
                  (ThoughtChain.branches chain)) ∧
    ∀ k, k ≠ chain_id_of input w →
         <[chain_id_of input w := chain']> thinking !! k = thinking !! k.
Proof.
  intros Hload Hstored Hplain.
  exists (stored_chain input thinking w),
    (set_timestamp input (clock w (S (clock_reads (after_create input thinking w))))),
    (after_store input thinking w).
  split; [apply storeThought_run; [exact Hload | now apply lookups_plain_intro]|].
  split; [reflexivity|].
  split; [apply after_create_memory|].
  assert (chain_before input thinking w = chain) as Hbefore.
  { unfold chain_before. now rewrite Hstored. }
  unfold stored_chain. rewrite Hbefore.
  destruct (routed_branch input) as [b|]; cbn; repeat split; eauto.
  all: intros k Hk; now apply lookup_insert_ne.
Qed.


(** ** Orchestrator *)

Lemma searchNodes_world toLowerCase q w : snd (searchNodes toLowerCase q w) = w.
Proof.
  unfold searchNodes, bind, ret.
  pose proof (loadGraph_world w) as H.
  destruct (loadGraph w) as [[graph|e] w1]; simpl in *; exact H.
Qed.

(** The optional fields pass through validation as they came. *)
Lemma validateInput_fields data input :
  validateInput data = Return input →
  raw_thought data = JString (thought input)
  ∧ raw_thoughtNumber data = JNumber (thoughtNumber input)
  ∧ raw_totalThoughts data = JNumber (totalThoughts input)
  ∧ raw_nextThoughtNeeded data = JBoolean (nextThoughtNeeded input)
  ∧ branchFromThought input = raw_branchFromThought data
  ∧ branchId input = raw_branchId data
  ∧ context input = raw_context data
  ∧ storeInMemory input = raw_storeInMemory data
  ∧ retrieveFromMemory input = raw_retrieveFromMemory data.
Proof.
  unfold validateInput.
  repeat match goal with
         | |- context [if ?c then _ else _] => destruct c; [discriminate|]
         end.
  destruct (raw_thought data), (raw_thoughtNumber data), (raw_totalThoughts data),
    (raw_nextThoughtNeeded data); try discriminate.
  intros [= <-]. cbn. repeat split.
Qed.

(** What the four guards accept. *)
Lemma validateInput_accepts data :
  (∃ input, validateInput data = Return input)
  ↔ (∃ s, raw_thought data = JString s ∧ s ≠ ""%string)
    ∧ (∃ n, raw_thoughtNumber data = JNumber n ∧ truthy_number n = true)
    ∧ (∃ n, raw_totalThoughts data = JNumber n ∧ truthy_number n = true)
    ∧ (∃ b, raw_nextThoughtNeeded data = JBoolean b).
Proof.
  split.
  - intros [input H].
    destruct (validateInput_fields data input H) as (Ht & Hn & Hk & Hb & _).
    unfold validateInput in H. rewrite Ht, Hn, Hk, Hb in H. cbn in H.
    destruct (String.eqb_spec (thought input) ""); [discriminate|].
    destruct (truthy_number (thoughtNumber input)) eqn:Hn'; [|discriminate].
    destruct (truthy_number (totalThoughts input)) eqn:Hk'; [|discriminate].
    repeat split; eauto.
  - intros ((s & Hs & Hne) & (n & Hn & Hn') & (k & Hk & Hk') & (b & Hb)).
    unfold validateInput. rewrite Hs, Hn, Hk, Hb. cbn.
    destruct (String.eqb_spec s ""); [contradiction|]. rewrite Hn', Hk'. cbn. eauto.
Qed.

(** A request that a guard refuses gets the failure response, and no file
    is touched. *)
Lemma processThought_invalid toLowerCase data e w :
  validateInput data = Throw e →
  processThought toLowerCase data w
  = (Return {| content := FailureText (error_message e) "failed";
               isError := Some true |}, w).
Proof.
  intros H. unfold processThought, try_catch.
  rewrite (bind_Throw _ _ w e w); [reflexivity|]. unfold lift. now rewrite H.
Qed.

Lemma widen_totalThoughts_fields input :
  branchFromThought (widen_totalThoughts input) = branchFromThought input
  ∧ branchId (widen_totalThoughts input) = branchId input
  ∧ context (widen_totalThoughts input) = context input
  ∧ storeInMemory (widen_totalThoughts input) = storeInMemory input
  ∧ retrieveFromMemory (widen_totalThoughts input) = retrieveFromMemory input.
Proof. unfold widen_totalThoughts. now destruct (number_gt _ _). Qed.

Lemma chain_id_of_widen input w :
  chain_id_of (widen_totalThoughts input) w = chain_id_of input w.
Proof.
  unfold chain_id_of.
  destruct (widen_totalThoughts_fields input) as (_ & -> & _). reflexivity.
Qed.

Lemma lift_run {A} (o : outcome A) w : lift o w = (o, w).
Proof. reflexivity. Qed.

(** C1 (as the code has it). For a request that passes validation, asks
    for retrieval and carries a non-empty context: if the graph search
    throws, the request fails.  The response is the failure payload with
    the error's message and [isError: true], and the world is as before:
    no thought is appended to the chain file and the graph file is not
    written. *)
Theorem processThought_retrieval_error toLowerCase data input ctx e w :
  validateInput data = Return input →
  raw_retrieveFromMemory data = Some true →
  raw_context data = Some ctx → ctx ≠ ""%string →
  fst (searchNodes toLowerCase ctx w) = Throw e →
  processThought toLowerCase data w
  = (Return {| content := FailureText (error_message e) "failed";
               isError := Some true |}, w).
Proof.
  intros Hvalid Hretrieve Hctx Hne Hsearch.
  destruct (validateInput_fields data input Hvalid)
    as (_ & _ & _ & _ & _ & _ & Hc & _ & Hr).
  destruct (widen_totalThoughts_fields input) as (_ & _ & Hc' & _ & Hr').
  assert (searchNodes toLowerCase ctx w = (Throw e, w)) as Hthrow.
  { pose proof (searchNodes_world toLowerCase ctx w).
    destruct (searchNodes toLowerCase ctx w); simpl in *. congruence. }
  unfold processThought, try_catch.
  rewrite (bind_Return _ _ w input w) by (now rewrite lift_run, Hvalid).
  cbv zeta. rewrite Hr', Hc', Hr, Hc, Hretrieve, Hctx.
  cbn [truthy_opt_bool]. rewrite (nonempty_Some ctx Hne).
  rewrite (bind_Throw _ _ w e w); [reflexivity|].
  now apply bind_Throw.
Qed.

(** X29. For a request that passes validation and carries no context
    (none or the empty string), on a chain file that is absent or holds a
    JSON object of chains, and an identifier (the non-empty [branchId], or
    else the generated one) that is no member name of [Object.prototype]:
    the request succeeds, the response carries the chain identifier and
    [contextStored] equal to the request's [storeInMemory] flag ([false]
    when absent), and the graph file is not written. *)
Theorem contextStored_echoes_storeInMemory toLowerCase data input w thinking :
  validateInput data = Return input →
  raw_context data = None ∨ raw_context data = Some ""%string →
  loadThinking w = (Return thinking, w) →
  chain_id_of input w ∉ Object_prototype_keys →
  ∃ r w',
    processThought toLowerCase data w
    = (Return {| content := ResultText r; isError := None |}, w') ∧
    contextStored r = default false (raw_storeInMemory data) ∧
    thoughtChainId r = chain_id_of input w ∧
    memory_file w' = memory_file w.
Proof.
  intros Hvalid Hctx Hload Hplain.
  destruct (validateInput_fields data input Hvalid)
    as (_ & _ & _ & _ & _ & _ & Hc & Hs & _).
  destruct (widen_totalThoughts_fields input) as (_ & _ & Hc' & Hs' & _).
  apply nonempty_None in Hctx.
  rewrite <- (chain_id_of_widen input w) in Hplain.
  pose proof (storeThought_run (widen_totalThoughts input) w thinking Hload
                (lookups_plain_intro _ _ _ Hplain)) as Hstore.
  unfold processThought, try_catch.
  rewrite (bind_Return _ _ w input w) by (now rewrite lift_run, Hvalid).
  cbv zeta. rewrite Hc', Hc, Hctx, Hs', Hs.
  assert (∀ c : bool, (if c then @None string else None) = None) as Hif
    by (now intros []).
  rewrite !Hif.
  rewrite (bind_Return _ _ w None w) by reflexivity.
  rewrite (bind_Return _ _ _ _ _ Hstore).
  rewrite (bind_Return _ _ _ tt (after_store (widen_totalThoughts input) thinking w))
    by reflexivity.
  unfold ret. eexists _, _. split; [reflexivity|].
  cbn [contextStored thoughtChainId]. split; [|split].
  - now destruct (raw_storeInMemory data) as [[]|].
  - apply chain_id_of_widen.
  - apply after_create_memory.
Qed.

(** Every success response reports the identifier that [storeThought]
    returned and echoes the [storeInMemory] flag. *)
Lemma processThought_success_inv toLowerCase data w resp w' r :
  processThought toLowerCase data w = (Return resp, w') →
  content resp = ResultText r →
  ∃ input w2,
    validateInput data = Return input ∧
    storeThought (widen_totalThoughts input) w = (Return (thoughtChainId r), w2) ∧
    contextStored r = default false (raw_storeInMemory data).
Proof.
  unfold processThought, try_catch.
  match goal with
  | |- context [match ?body w with _ => _ end] =>
      destruct (body w) as [[resp0|e] w0] eqn:Hbody
  end.
  2:{ unfold ret. intros [= <- <-]. discriminate. }
  intros [= <- <-] Hcontent.
  apply bind_inv in Hbody as (input & w1 & Hvalid & Hbody).
  rewrite lift_run in Hvalid. injection Hvalid as Hvalid <-.
  cbv zeta in Hbody.
  apply bind_inv in Hbody as (found & w2 & Hsearch & Hbody).
  assert (w2 = w) as ->.
  { destruct (if truthy_opt_bool _ then _ else _) as [ctx|].
    - apply bind_inv in Hsearch as (graph & w3 & Hs & Hret).
      pose proof (searchNodes_world toLowerCase ctx w) as Hw.
      rewrite Hs in Hw. simpl in Hw. subst w3. now injection Hret.
    - now injection Hsearch. }
  apply bind_inv in Hbody as (id & w3 & Hstore & Hbody).
  apply bind_inv in Hbody as ([] & w4 & _ & Hret).
  injection Hret as <- <-. cbn in Hcontent. injection Hcontent as <-.
  exists input, w3. split; [exact Hvalid|]. split; [exact Hstore|].
  cbn [contextStored].
  destruct (validateInput_fields data input Hvalid)
    as (_ & _ & _ & _ & _ & _ & _ & Hs & _).
  destruct (widen_totalThoughts_fields input) as (_ & _ & _ & Hs' & _).
  rewrite Hs', Hs. now destruct (raw_storeInMemory data) as [[]|].
Qed.

(** X27. Whenever a request carrying a non-empty [branchId] is answered
    with a success response, the [thoughtChainId] of the response is that
    [branchId]: passing the identifier of one response as the [branchId] of
    the next request continues the same chain. *)
Lemma processThought_reports_chain_id toLowerCase data w resp w' r b :
  processThought toLowerCase data w = (Return resp, w') →
  content resp = ResultText r →
  raw_branchId data = Some b → b ≠ ""%string →
  thoughtChainId r = b.
Proof.
  intros Hrun Hcontent Hb Hne.
  destruct (processThought_success_inv _ _ _ _ _ _ Hrun Hcontent)
    as (input & w2 & Hvalid & Hstore & _).
  destruct (storeThought_inv _ _ _ _ Hstore) as (thinking & Hload & Hplain).
  rewrite (storeThought_run _ w thinking Hload Hplain) in Hstore.
  injection Hstore as Hid _. rewrite <- Hid, chain_id_of_widen.
  destruct (validateInput_fields data input Hvalid)
    as (_ & _ & _ & _ & _ & Hbid & _).
  unfold chain_id_of. now rewrite Hbid, Hb, (nonempty_Some b Hne).
Qed.

(** X26. [processThought] never throws, whatever the request and the
    state of the files: every error raised by validation or by a store is
    caught and answered with a response. *)
Lemma processThought_total toLowerCase data w :
  ∃ resp w', processThought toLowerCase data w = (Return resp, w').
Proof.
  unfold processThought, try_catch.
  match goal with
  | |- context [match ?body w with _ => _ end] =>
      destruct (body w) as [[resp0|e] w0]
  end; unfold ret; eauto.
Qed.

(** ** Sample worlds and requests *)

Definition sample_clock (n : nat) : Z := Z.of_nat n + 1700000000000.

Definition sample_random (n : nat) : string := "k3x9q".

(** No file yet. *)
Definition fresh_world : World :=
  {| memory_file := NoFile; thinking_file := NoFile;
     clock := sample_clock; clock_reads := 0;
     random := sample_random; random_reads := 0 |}.

(** A graph file with a line that is not JSON. *)
Definition corrupt_graph_world : World :=
  set_memory_file (Content [BadLine]) fresh_world.

Definition alice : Entity := Entity.mk "alice" "person" ["likes tea"].

Definition bob : Entity := Entity.mk "bob" "person" [].

Definition knows : Relation := Relation.mk "alice" "bob" "knows".

Definition alice_world : World :=
  set_memory_file (Content [EntityLine alice]) fresh_world.

Definition alice_graph : KnowledgeGraph :=
  {| entities := [alice]; relations := [] |}.

Definition request (thoughtNumber : number) (branchFromThought : option number)
    (branchId context : option string) (storeInMemory retrieveFromMemory : option bool)
    : RawInput :=
  {| raw_thought := JString "A";
     raw_thoughtNumber := JNumber thoughtNumber;
     raw_totalThoughts := JNumber (number_of_Z 3);
     raw_nextThoughtNeeded := JBoolean true;
     raw_isRevision := None; raw_revisesThought := None;
     raw_branchFromThought := branchFromThought; raw_branchId := branchId;
     raw_needsMoreThoughts := None; raw_context := context;
     raw_timestamp := None; raw_storeInMemory := storeInMemory;
     raw_retrieveFromMemory := retrieveFromMemory |}.

Definition thought_input (thoughtNumber : number) (branchFromThought : option number)
    (branchId context : option string) (storeInMemory retrieveFromMemory : option bool)
    : MemoryThinkingInput :=
  {| thought := "A"; thoughtNumber := thoughtNumber;
     totalThoughts := number_of_Z 3;
     isRevision := None; revisesThought := None;
     branchFromThought := branchFromThought; branchId := branchId;
     needsMoreThoughts := None; nextThoughtNeeded := true;
     context := context; timestamp := None;
     storeInMemory := storeInMemory;
     retrieveFromMemory := retrieveFromMemory |}.

(** A chain file that holds the chain ["main"] with one thought. *)
Definition main_chain : ThoughtChain :=
  ThoughtChain.mk "main" "topic"
    [set_timestamp (thought_input (number_of_Z 1) None (Some "main"%string) None None None)
       1600000000000]
    ∅ 1600000000000 1600000000000.

Definition main_world : World :=
  set_thinking_file (Content (Parsed {[ "main"%string := main_chain ]})) fresh_world.

Lemma not_prototype_key (key : string) :
  bool_decide (key ∈ Object_prototype_keys) = false →
  key ∉ Object_prototype_keys.
Proof. intros H. now apply bool_decide_eq_false in H. Qed.

Lemma json_store_empty : json_store ∅.
Proof. apply map_Forall_empty. Qed.

Lemma main_world_json : json_store {[ "main"%string := main_chain ]}.
Proof.
  apply map_Forall_singleton. split; [repeat constructor | apply map_Forall_empty].
Qed.

(** ** The claims at concrete inputs *)

(** C1 as stated fails: a request that passes validation, with
    [retrieveFromMemory] true and the context ["topic"], on a graph file
    with a corrupt line.  The search throws, the response has
    [isError: true], and the chain file is still absent: the thought was
    not appended. *)
Lemma retrieval_error_fails_request :
  let data := request (number_of_Z 1) None None (Some "topic"%string) None (Some true) in
  (∃ input, validateInput data = Return input) ∧
  fst (searchNodes ascii_toLowerCase "topic" corrupt_graph_world)
  = Throw (SyntaxError "Unexpected token in JSON") ∧
  processThought ascii_toLowerCase data corrupt_graph_world
  = (Return {| content := FailureText "Unexpected token in JSON" "failed";
               isError := Some true |}, corrupt_graph_world) ∧
  thinking_file corrupt_graph_world = NoFile.
Proof. cbv zeta. split; [eexists; reflexivity|]. repeat split. Qed.

Lemma processThought_retrieval_error_witness :
  processThought ascii_toLowerCase
    (request (number_of_Z 1) None None (Some "topic"%string) None (Some true))
    corrupt_graph_world
  = (Return {| content := FailureText "Unexpected token in JSON" "failed";
               isError := Some true |}, corrupt_graph_world).
Proof.
  apply (processThought_retrieval_error ascii_toLowerCase
           (request (number_of_Z 1) None None (Some "topic"%string) None (Some true))
           (thought_input (number_of_Z 1) None None (Some "topic"%string) None (Some true))
           "topic" (SyntaxError "Unexpected token in JSON") corrupt_graph_world).
  - reflexivity.
  - reflexivity.
  - reflexivity.
  - discriminate.
  - reflexivity.
Defined.

(** C2 at a negative and at a fractional [thoughtNumber]: neither is a
    positive integer, both pass validation; the request succeeds and the
    chain file is written. *)
Theorem validateInput_accepts_negative_and_fractional :
  is_positive_integer (number_of_Z (-1)) = false ∧
  is_positive_integer (number_of_dyadic 3 (-1)) = false ∧
  (∀ n, n = number_of_Z (-1) ∨ n = number_of_dyadic 3 (-1) →
        ∃ r w',
          processThought ascii_toLowerCase (request n None None None None None)
            fresh_world
          = (Return {| content := ResultText r; isError := None |}, w') ∧
          result_thoughtNumber r = n ∧
          thinking_file fresh_world = NoFile ∧
          ∃ thinking chain,
            thinking_file w' = Content (Parsed thinking) ∧
            thinking !! thoughtChainId r = Some chain ∧
            thoughtNumber <$> ThoughtChain.thoughts chain = [n]).
Proof.
  split; [reflexivity|]. split; [reflexivity|].
  intros n [->| ->]; eexists _, _; (split; [reflexivity|]);
    (split; [reflexivity|]); (split; [reflexivity|]);
    eexists _, _; (split; [reflexivity|]); split; reflexivity.
Qed.

(** C3 at a batch item that repeats a new string: both copies are added. *)
Theorem addObservations_repeated_content :
  addObservations [ObservationItem.mk "bob" ["x"; "x"]]
    (set_memory_file (Content [EntityLine bob]) fresh_world)
  = (Return [AddedItem.mk "bob" ["x"; "x"]],
     set_memory_file (Content [EntityLine (Entity.mk "bob" "person" ["x"; "x"])])
       fresh_world).
Proof. reflexivity. Qed.

Lemma addObservations_unknown_entity_witness :
  ∃ o, o ∈ [ObservationItem.mk "alice" ["tall"]; ObservationItem.mk "carol" ["x"]]
       ∧ (ObservationItem.entityName o ∉ entity_names alice_graph)
       ∧ addObservations
           [ObservationItem.mk "alice" ["tall"]; ObservationItem.mk "carol" ["x"]]
           alice_world
         = (Throw (Error ("Entity with name " +:+ ObservationItem.entityName o
                          +:+ " not found")), alice_world).
Proof.
  apply (addObservations_unknown_entity
           [ObservationItem.mk "alice" ["tall"]; ObservationItem.mk "carol" ["x"]]
           alice_world alice_graph).
  - reflexivity.
  - exists (ObservationItem.mk "carol" ["x"]). split.
    + right. left.
    + intros H. apply list_elem_of_singleton in H. discriminate.
Defined.

Lemma createEntities_fresh_then_duplicate_witness :
  ∃ w1,
    createEntities [bob] alice_world = (Return [bob], w1) ∧
    loadGraph w1 = (Return {| entities := [alice; bob]; relations := [] |}, w1) ∧
    ∀ c', Entity.name c' = "bob"%string → createEntities [c'] w1 = (Return [], w1).
Proof.
  apply (createEntities_fresh_then_duplicate bob alice_world alice_graph).
  - reflexivity.
  - intros H. apply list_elem_of_singleton in H. discriminate.
Defined.

(** C6 at a [branchId] that names a member of [Object.prototype].  The
    tool schema takes any string as [branchId]; with ["constructor"] the
    lookup [thinking[id]] finds the inherited member, so the
    create-if-absent test does not create the chain, and the value taken
    for the chain has neither [branches] nor [thoughts].  With
    [branchFromThought] 1 the thought is not appended to
    [branches["constructor"]], and without [branchFromThought] it is not
    appended to [thoughts]: in both cases the append throws a [TypeError]
    after its two clock reads and the chain file is not written. *)
Theorem storeThought_routing_inherited_key :
  let routed :=
    thought_input (number_of_Z 1) (Some (number_of_Z 1))
      (Some "constructor"%string) None None None in
  let unrouted :=
    thought_input (number_of_Z 1) None (Some "constructor"%string)
      None None None in
  is_positive_integer (number_of_Z 1) = true ∧
  loadThinking fresh_world = (Return ∅, fresh_world) ∧
  storeThought routed fresh_world
  = (Throw (TypeError "Cannot read properties of undefined"),
     tick (tick fresh_world)) ∧
  storeThought unrouted fresh_world
  = (Throw (TypeError "Cannot read properties of undefined"),
     tick (tick fresh_world)) ∧
  thinking_file (tick (tick fresh_world)) = NoFile.
Proof. repeat split. Qed.

(** C9 at a [branchId] that names a member of [Object.prototype]: a
    request that passes validation, with [storeInMemory] true, no context
    and [branchId] ["constructor"], on no chain file.  The append throws
    (see C6), so the response is the failure payload with [isError: true]:
    it has no [contextStored] field at all. *)
Theorem contextStored_inherited_key :
  let data :=
    request (number_of_Z 1) None (Some "constructor"%string) None (Some true)
      None in
  (∃ input, validateInput data = Return input) ∧
  raw_storeInMemory data = Some true ∧
  raw_context data = None ∧
  processThought ascii_toLowerCase data fresh_world
  = (Return {| content := FailureText "Cannot read properties of undefined" "failed";
               isError := Some true |},
     tick (tick fresh_world)).
Proof. split; [eexists; reflexivity|]. repeat split. Qed.

Lemma storeThought_routing_witness :
  ∃ chain' w',
    storeThought
      (thought_input (number_of_Z 2) (Some (number_of_Z 1)) (Some "main"%string)
         None None None)
      main_world
    = (Return "main"%string, w') ∧
    thinking_file w' = Content (Parsed (<["main"%string := chain']> {[ "main"%string := main_chain ]})) ∧
    ThoughtChain.thoughts chain' = ThoughtChain.thoughts main_chain ∧
    ∃ stamp,
      ThoughtChain.branches chain'
      = {[ "main"%string :=
             [set_timestamp
                (thought_input (number_of_Z 2) (Some (number_of_Z 1))
                   (Some "main"%string) None None None) stamp] ]}.
Proof.
  destruct (storeThought_routing
              (thought_input (number_of_Z 2) (Some (number_of_Z 1))
                 (Some "main"%string) None None None)
              main_world {[ "main"%string := main_chain ]})
    as (chain & chain' & k & w' & Hrun & Hfile & Hbefore & _ & _ & _ & Hbranch & _).
  - reflexivity.
  - exact main_world_json.
  - reflexivity.
  - now apply not_prototype_key.
  - intros n [= <-]. reflexivity.
  - exists chain', w'. split; [exact Hrun|]. split; [exact Hfile|].
    destruct (Hbranch "main"%string) as [Hb Ht]; [eauto | reflexivity | discriminate |].
    assert (chain = main_chain) as ->.
    { destruct Hbefore as [H|[H _]]; [|discriminate H].
      change (Some main_chain = Some chain) in H. congruence. }
    split; [exact Ht|]. exists (clock main_world (S k)). exact Hb.
Defined.

Lemma searchNodes_induced_subgraph_witness :
  ∃ found,
    searchNodes ascii_toLowerCase "TEA"
      (set_memory_file (Content [EntityLine alice; EntityLine bob; RelationLine knows])
         fresh_world)
    = (Return found,
       set_memory_file (Content [EntityLine alice; EntityLine bob; RelationLine knows])
         fresh_world) ∧
    (alice ∈ entities found) ∧ (bob ∉ entities found) ∧ (knows ∉ relations found).
Proof.
  destruct (searchNodes_induced_subgraph ascii_toLowerCase "TEA"
              (set_memory_file
                 (Content [EntityLine alice; EntityLine bob; RelationLine knows])
                 fresh_world)
              {| entities := [alice; bob]; relations := [knows] |})
    as (found & Hrun & Hentities & Hrelations).
  - reflexivity.
  - assert (bob ∉ entities found) as Hbob.
    { intros H. apply Hentities in H as [_ [H|[H|(o & Ho & _)]]].
      - apply includes_spec in H. discriminate.
      - apply includes_spec in H. discriminate.
      - now apply elem_of_nil in Ho. }
    exists found. split; [exact Hrun|]. split; [|split; [exact Hbob|]].
    + apply Hentities. split; [left|]. right; right.
      exists "likes tea"%string. split; [left|].
      apply includes_spec. reflexivity.
    + intros H. apply Hrelations in H as (_ & _ & Hto).
      unfold entity_names in Hto. apply list_elem_of_fmap in Hto as (e & He & Hin).
      pose proof (proj1 (Hentities e) Hin) as [Hmem _].
      apply elem_of_cons in Hmem as [->|Hmem]; [discriminate He|].
      apply list_elem_of_singleton in Hmem as ->. exact (Hbob Hin).
Defined.


Lemma contextStored_echoes_storeInMemory_witness :
  ∃ r w',
    processThought ascii_toLowerCase
      (request (number_of_Z 1) None None None (Some true) None) fresh_world
    = (Return {| content := ResultText r; isError := None |}, w') ∧
    contextStored r = true ∧
    thoughtChainId r = "loyw3v28k3x9q"%string ∧
    memory_file w' = NoFile.
Proof.
  apply (contextStored_echoes_storeInMemory ascii_toLowerCase
           (request (number_of_Z 1) None None None (Some true) None)
           (thought_input (number_of_Z 1) None None None (Some true) None)
           fresh_world ∅).
  - reflexivity.
  - now left.
  - reflexivity.
  - now apply not_prototype_key.
Defined.

Lemma storeThought_existing_chain_frame_witness :
  ∃ chain' w',
    storeThought
      (thought_input (number_of_Z 2) None (Some "main"%string)
         (Some "another topic"%string) None None)
      main_world
    = (Return "main"%string, w') ∧
    thinking_file w'
    = Content (Parsed (<["main"%string := chain']> {[ "main"%string := main_chain ]})) ∧
    ThoughtChain.context chain' = "topic"%string ∧
    ThoughtChain.createdAt chain' = 1600000000000.
Proof.
  destruct (storeThought_existing_chain_frame
              (thought_input (number_of_Z 2) None (Some "main"%string)
                 (Some "another topic"%string) None None)
              main_world {[ "main"%string := main_chain ]} main_chain)
    as (chain' & t & w' & Hrun & Hfile & _ & _ & Hcontext & Hcreated & _).
  - reflexivity.
  - reflexivity.
  - now apply not_prototype_key.
  - exists chain', w'. split; [exact Hrun|]. split; [exact Hfile|].
    split; [exact Hcontext | exact Hcreated].
Defined.

(** * Further properties of the stores and the orchestrator *)

(** ** The graph file *)





Lemma set_memory_file_twice f g w :
  set_memory_file f (set_memory_file g w) = set_memory_file f w.
Proof. reflexivity. Qed.

Lemma filter_all_false {A} (f : A → bool) (l : list A) :
  (∀ x, In x l → f x = false) → List.filter f l = [].
Proof.
  induction l as [|x l IH]; intros H; [reflexivity|]. cbn.
  rewrite (H x (or_introl eq_refl)). apply IH. intros y Hy. apply H. now right.
Qed.

Lemma filter_sublist {A} (f : A → bool) (l : list A) : sublist (List.filter f l) l.
Proof.
  induction l as [|x l IH]; cbn; [constructor|].
  destruct (f x); now constructor.
Qed.

(** X1. What [saveGraph] writes, [loadGraph] reads back: saving any graph
    and loading again yields that graph, whatever the file held before. *)
Theorem saveGraph_then_loadGraph graph w :
  (saveGraph graph ;;' loadGraph) w
  = (Return graph, set_memory_file (Content (graph_lines graph)) w).
Proof.
  unfold bind, saveGraph. apply loadGraph_saved.
Qed.

(** X2. A read error of the graph file other than "no such file" is
    thrown on by [loadGraph] as it is, and nothing is written. *)
Theorem loadGraph_unreadable w code :
  memory_file w = ReadError code → code ≠ "ENOENT"%string →
  loadGraph w = (Throw (SystemError code), w).
Proof.
  intros Hfile Hcode.
  unfold loadGraph, try_catch, bind, readFile. rewrite Hfile. cbn.
  destruct (String.eqb_spec code "ENOENT"); [contradiction | reflexivity].
Qed.

Lemma loadGraph_unreadable_witness :
  loadGraph (set_memory_file (ReadError "EACCES") fresh_world)
  = (Throw (SystemError "EACCES"), set_memory_file (ReadError "EACCES") fresh_world).
Proof.
  apply (loadGraph_unreadable (set_memory_file (ReadError "EACCES") fresh_world) "EACCES").
  - reflexivity.
  - discriminate.
Defined.



(** ** createEntities and createRelations *)

Definition same_relation (a b : Relation) : bool :=
  String.eqb (Relation.from a) (Relation.from b)
  && String.eqb (Relation.to a) (Relation.to b)
  && String.eqb (Relation.relationType a) (Relation.relationType b).

Lemma same_relation_eq a b : same_relation a b = true ↔ a = b.
Proof.
  unfold same_relation. rewrite !andb_true_iff, !String.eqb_eq.
  destruct a, b; cbn. split; [intros [[-> ->] ->] | intros [= -> -> ->]]; auto.
Qed.

Lemma existsb_relation_true r rs :
  existsb (λ existingRelation, same_relation existingRelation r) rs = true ↔ r ∈ rs.
Proof.
  rewrite existsb_exists, list_elem_of_In. split.
  - intros (x & Hx & Heq). apply same_relation_eq in Heq. now subst.
  - intros H. exists r. split; [exact H | now apply same_relation_eq].
Qed.

Lemma existsb_name_true (n : string) (es : list Entity) :
  existsb (λ existingEntity, String.eqb (Entity.name existingEntity) n) es = true
  ↔ n ∈ (Entity.name <$> es).
Proof.
  rewrite existsb_exists, list_elem_of_fmap. split.
  - intros (e & He & Heq). apply String.eqb_eq in Heq.
    exists e. split; [now symmetry | now apply list_elem_of_In].
  - intros (e & -> & He). exists e.
    split; [now apply list_elem_of_In | apply String.eqb_refl].
Qed.

(** The entities that [createEntities] keeps of its candidates. *)
Definition new_entities (graph : KnowledgeGraph) (candidates : list Entity)
    : list Entity :=
  List.filter
    (λ e, negb (existsb
                  (λ existingEntity,
                     String.eqb (Entity.name existingEntity) (Entity.name e))
                  (entities graph)))
    candidates.

Definition new_relations (graph : KnowledgeGraph) (candidates : list Relation)
    : list Relation :=
  List.filter
    (λ r, negb (existsb (λ existingRelation, same_relation existingRelation r)
                  (relations graph)))
    candidates.

Lemma createEntities_run candidates w graph :
  loadGraph w = (Return graph, w) →
  createEntities candidates w
  = (Return (new_entities graph candidates),
     set_memory_file
       (Content (graph_lines
                   {| entities := entities graph ++ new_entities graph candidates;
                      relations := relations graph |})) w).
Proof.
  intros Hload. unfold createEntities.
  now rewrite (bind_Return _ _ _ _ _ Hload).
Qed.

Lemma createRelations_run candidates w graph :
  loadGraph w = (Return graph, w) →
  createRelations candidates w
  = (Return (new_relations graph candidates),
     set_memory_file
       (Content (graph_lines
                   {| entities := entities graph;
                      relations := relations graph ++ new_relations graph candidates |}))
       w).
Proof.
  intros Hload. unfold createRelations.
  now rewrite (bind_Return _ _ _ _ _ Hload).
Qed.

Lemma new_entities_spec graph candidates e :
  e ∈ new_entities graph candidates
  ↔ e ∈ candidates ∧ Entity.name e ∉ entity_names graph.
Proof.
  unfold new_entities.
  rewrite list_elem_of_In, filter_In, <- list_elem_of_In, negb_true_iff.
  now rewrite existsb_name_false.
Qed.

Lemma new_relations_spec graph candidates r :
  r ∈ new_relations graph candidates ↔ r ∈ candidates ∧ r ∉ relations graph.
Proof.
  unfold new_relations.
  rewrite list_elem_of_In, filter_In, <- list_elem_of_In, negb_true_iff.
  rewrite <- (existsb_relation_true r (relations graph)), not_true_iff_false.
  reflexivity.
Qed.

(** X4. On a graph that loads, [createEntities] returns, in their order,
    exactly the candidates whose name the graph does not have yet, appends
    them after the stored entities, keeps every stored entity and relation
    as it is, and does not touch the chain file. *)
Theorem createEntities_appends_new candidates w graph :
  loadGraph w = (Return graph, w) →
  ∃ added w1,
    createEntities candidates w = (Return added, w1) ∧
    sublist added candidates ∧
    (∀ e, e ∈ added ↔ e ∈ candidates ∧ Entity.name e ∉ entity_names graph) ∧
    loadGraph w1
    = (Return {| entities := entities graph ++ added; relations := relations graph |},
       w1) ∧
    thinking_file w1 = thinking_file w.
Proof.
  intros Hload. eexists _, _.
  split; [apply (createEntities_run candidates w graph Hload)|].
  split; [apply filter_sublist|].
  split; [apply new_entities_spec|].
  split; [apply loadGraph_saved | reflexivity].
Qed.

Lemma createEntities_appends_new_witness :
  ∃ added w1,
    createEntities [alice; bob] alice_world = (Return added, w1) ∧
    sublist added [alice; bob] ∧
    (∀ e, e ∈ added ↔ e ∈ [alice; bob] ∧ Entity.name e ∉ entity_names alice_graph) ∧
    loadGraph w1
    = (Return {| entities := [alice] ++ added; relations := [] |}, w1) ∧
    thinking_file w1 = thinking_file alice_world.
Proof.
  apply (createEntities_appends_new [alice; bob] alice_world alice_graph eq_refl).
Defined.

(** X5. Repeating a [createEntities] call with the same candidates adds
    nothing: the second call returns the empty sequence and leaves the
    graph file as the first call wrote it. *)
Theorem createEntities_idempotent candidates w graph :
  loadGraph w = (Return graph, w) →
  ∃ added w1,
    createEntities candidates w = (Return added, w1) ∧
    createEntities candidates w1 = (Return [], w1).
Proof.
  intros Hload. eexists _, _.
  split; [apply (createEntities_run candidates w graph Hload)|].
  rewrite (createEntities_run candidates _ _ (loadGraph_saved _ w)).
  assert (new_entities
            {| entities := entities graph ++ new_entities graph candidates;
               relations := relations graph |} candidates = []) as ->.
  { apply filter_all_false. intros c Hc. apply negb_false_iff.
    apply existsb_name_true. cbn [entities]. rewrite fmap_app, elem_of_app.
    destruct (decide (Entity.name c ∈ entity_names graph)) as [Hin|Hout];
      [now left | right].
    apply list_elem_of_fmap. exists c. split; [reflexivity|].
    apply new_entities_spec. split; [now apply list_elem_of_In | exact Hout]. }
  cbn [entities relations]. now rewrite app_nil_r, set_memory_file_twice.
Qed.

Lemma createEntities_idempotent_witness :
  ∃ added w1,
    createEntities [bob; alice] alice_world = (Return added, w1) ∧
    createEntities [bob; alice] w1 = (Return [], w1).
Proof.
  apply (createEntities_idempotent [bob; alice] alice_world alice_graph eq_refl).
Defined.

(** X6. The name check of [createEntities] looks at the stored graph only:
    a candidate with a new name that occurs twice in one call is stored
    twice, so the graph then holds two entities of that name. *)
Theorem createEntities_repeated_candidate (c : Entity) w graph :
  loadGraph w = (Return graph, w) →
  Entity.name c ∉ entity_names graph →
  ∃ w1,
    createEntities [c; c] w = (Return [c; c], w1) ∧
    loadGraph w1
    = (Return {| entities := entities graph ++ [c; c]; relations := relations graph |},
       w1).
Proof.
  intros Hload Hfresh. eexists.
  rewrite (createEntities_run [c; c] w graph Hload).
  assert (new_entities graph [c; c] = [c; c]) as ->.
  { unfold new_entities. cbn [List.filter].
    apply existsb_name_false in Hfresh. now rewrite Hfresh. }
  split; [reflexivity | apply loadGraph_saved].
Qed.

Lemma createEntities_repeated_candidate_witness :
  ∃ w1,
    createEntities [bob; bob] alice_world = (Return [bob; bob], w1) ∧
    loadGraph w1
    = (Return {| entities := [alice; bob; bob]; relations := [] |}, w1).
Proof.
  apply (createEntities_repeated_candidate bob alice_world alice_graph eq_refl).
  intros H. apply list_elem_of_singleton in H. discriminate.
Defined.

(** X7. On a graph that loads, [createRelations] returns exactly the
    candidates that are not yet stored (same [from], [to] and
    [relationType]), whether or not their endpoints name an entity, and
    keeps the entities; a second call with the same candidates returns the
    empty sequence and leaves the file as the first call wrote it. *)
Theorem createRelations_idempotent candidates w graph :
  loadGraph w = (Return graph, w) →
  ∃ added w1,
    createRelations candidates w = (Return added, w1) ∧
    (∀ r, r ∈ added ↔ r ∈ candidates ∧ r ∉ relations graph) ∧
    loadGraph w1
    = (Return {| entities := entities graph; relations := relations graph ++ added |},
       w1) ∧
    createRelations candidates w1 = (Return [], w1).
Proof.
  intros Hload. eexists _, _.
  split; [apply (createRelations_run candidates w graph Hload)|].
  split; [apply new_relations_spec|].
  split; [apply loadGraph_saved|].
  rewrite (createRelations_run candidates _ _ (loadGraph_saved _ w)).
  assert (new_relations
            {| entities := entities graph;
               relations := relations graph ++ new_relations graph candidates |}
            candidates = []) as ->.
  { apply filter_all_false. intros r Hr. apply negb_false_iff.
    apply existsb_relation_true. cbn [relations]. rewrite elem_of_app.
    destruct (existsb (λ existingRelation, same_relation existingRelation r)
                (relations graph)) eqn:Hstored.
    - left. now apply existsb_relation_true.
    - right. apply new_relations_spec. split; [now apply list_elem_of_In|].
      intros Hin. apply existsb_relation_true in Hin. congruence. }
  cbn [entities relations]. now rewrite app_nil_r, set_memory_file_twice.
Qed.

Lemma createRelations_idempotent_witness :
  ∃ added w1,
    createRelations [knows; knows] alice_world = (Return added, w1) ∧
    (∀ r, r ∈ added ↔ r ∈ [knows; knows] ∧ r ∉ relations alice_graph) ∧
    loadGraph w1
    = (Return {| entities := [alice]; relations := [] ++ added |}, w1) ∧
    createRelations [knows; knows] w1 = (Return [], w1).
Proof.
  apply (createRelations_idempotent [knows; knows] alice_world alice_graph eq_refl).
Defined.

(** ** addObservations *)

Lemma array_includes_spec (l : list string) (x : string) :
  array_includes l x = true ↔ x ∈ l.
Proof.
  unfold array_includes. rewrite existsb_exists, list_elem_of_In. split.
  - intros (y & Hy & Heq). apply String.eqb_eq in Heq. now subst.
  - intros H. exists x. split; [exact H | apply String.eqb_refl].
Qed.

(** The strings of [contents] that [addObservations] appends to [entity]. *)
Definition new_observations (entity : Entity) (contents : list string) : list string :=
  List.filter (λ content, negb (array_includes (Entity.observations entity) content))
    contents.

Lemma new_observations_spec entity contents x :
  x ∈ new_observations entity contents
  ↔ x ∈ contents ∧ x ∉ Entity.observations entity.
Proof.
  unfold new_observations.
  rewrite list_elem_of_In, filter_In, <- list_elem_of_In, negb_true_iff.
  rewrite <- (array_includes_spec (Entity.observations entity) x), not_true_iff_false.
  reflexivity.
Qed.

Definition add_to (new : list string) (e : Entity) : Entity :=
  Entity.mk (Entity.name e) (Entity.entityType e) (Entity.observations e ++ new).

Lemma add_to_nil e : add_to [] e = e.
Proof. destruct e. unfold add_to. cbn. now rewrite app_nil_r. Qed.

(** After a push, a lookup by name finds the same entity as before, with
    the pushed strings if it is the one pushed to. *)
Lemma find_push m n new es :
  List.find (λ e, String.eqb (Entity.name e) m) (push_observations n new es)
  = (if String.eqb m n then add_to new else (λ e, e))
      <$> List.find (λ e, String.eqb (Entity.name e) m) es.
Proof.
  induction es as [|e es IH]; cbn [push_observations List.find]; [reflexivity|].
  destruct (String.eqb_spec (Entity.name e) n) as [Hn|Hn]; cbn [List.find Entity.name].
  - destruct (String.eqb_spec (Entity.name e) m) as [Hm|Hm].
    + assert (String.eqb m n = true) as -> by (apply String.eqb_eq; congruence).
      reflexivity.
    + assert (String.eqb m n = false) as -> by (apply String.eqb_neq; congruence).
      now destruct (List.find _ es).
  - destruct (String.eqb_spec (Entity.name e) m) as [Hm|Hm]; [|exact IH].
    assert (String.eqb m n = false) as -> by (apply String.eqb_neq; congruence).
    reflexivity.
Qed.

Lemma push_observations_nil n es : push_observations n [] es = es.
Proof.
  induction es as [|e es IH]; cbn [push_observations]; [reflexivity|].
  destruct (String.eqb (Entity.name e) n).
  - f_equal. apply (add_to_nil e).
  - now f_equal.
Qed.

(** Entity by entity: same name and type, observations extended at the end. *)
Definition extended (es es' : list Entity) : Prop :=
  Forall2
    (λ e e', Entity.name e' = Entity.name e
             ∧ Entity.entityType e' = Entity.entityType e
             ∧ ∃ added, Entity.observations e' = Entity.observations e ++ added)
    es es'.

Lemma extended_refl es : extended es es.
Proof.
  induction es as [|e es IH]; constructor; [|exact IH].
  repeat split. exists []. now rewrite app_nil_r.
Qed.

Lemma extended_trans es1 es2 es3 :
  extended es1 es2 → extended es2 es3 → extended es1 es3.
Proof.
  intros H12. revert es3. induction H12 as [|e1 e2 es1 es2 H _ IH]; intros es3 H23.
  - inversion H23. constructor.
  - inversion H23 as [|? e3 ? es3' H' H23']; subst. constructor; [|now apply IH].
    destruct H as (Hn & Ht & a & Ha), H' as (Hn' & Ht' & b & Hb).
    split; [congruence|]. split; [congruence|].
    exists (a ++ b). now rewrite Hb, Ha, <- app_assoc.
Qed.

Lemma push_observations_extended n new es : extended es (push_observations n new es).
Proof.
  induction es as [|e es IH]; cbn [push_observations]; [constructor|].
  destruct (String.eqb (Entity.name e) n).
  - constructor; [|apply extended_refl]. repeat split. now exists new.
  - constructor; [|exact IH]. repeat split. exists []. now rewrite app_nil_r.
Qed.

Lemma add_each_cons o batch graph entity :
  List.find (λ e, String.eqb (Entity.name e) (ObservationItem.entityName o))
    (entities graph) = Some entity →
  add_each (o :: batch) graph
  = match add_each batch
            {| entities :=
                 push_observations (ObservationItem.entityName o)
                   (new_observations entity (ObservationItem.contents o))
                   (entities graph);
               relations := relations graph |} with
    | Return (results, graph') =>
        Return (AddedItem.mk (ObservationItem.entityName o)
                  (new_observations entity (ObservationItem.contents o)) :: results,
                graph')
    | Throw e => Throw e
    end.
Proof. intros H. cbn [add_each]. now rewrite H. Qed.

Lemma find_name_Some (n : string) (es : list Entity) :
  n ∈ (Entity.name <$> es) →
  ∃ entity, List.find (λ e, String.eqb (Entity.name e) n) es = Some entity.
Proof.
  intros Hin. destruct (List.find _ es) as [entity|] eqn:Hfind; [eauto|].
  now apply find_name_None in Hfind.
Qed.

Lemma add_each_success batch graph :
  (∀ o, o ∈ batch → ObservationItem.entityName o ∈ entity_names graph) →
  ∃ results graph',
    add_each batch graph = Return (results, graph') ∧
    Forall2
      (λ o r, AddedItem.entityName r = ObservationItem.entityName o
              ∧ sublist (AddedItem.addedObservations r) (ObservationItem.contents o))
      batch results ∧
    extended (entities graph) (entities graph') ∧
    relations graph' = relations graph.
Proof.
  revert graph. induction batch as [|o batch IH]; intros graph Hall.
  - exists [], graph. repeat split; [constructor | apply extended_refl].
  - destruct (find_name_Some _ _ (Hall o (list_elem_of_here _ _))) as [entity Hfind].
    rewrite (add_each_cons o batch graph entity Hfind).
    match goal with
    | |- context [add_each batch ?g] =>
        destruct (IH g) as (results & graph' & -> & Hres & Hext & Hrel)
    end.
    { intros o' Ho'. unfold entity_names in *. cbn [entities].
      rewrite push_observations_names. apply Hall. now right. }
    eexists _, _. split; [reflexivity|]. split; [|split].
    + constructor; [|exact Hres]. split; [reflexivity | apply filter_sublist].
    + eapply extended_trans; [|exact Hext]. apply push_observations_extended.
    + exact Hrel.
Qed.

(** X8. When every item of the batch names an entity of a graph that
    loads, [addObservations] returns one result per item, in order, with
    the item's name and a subsequence of its contents; in the stored graph
    every entity keeps its position, name and type, its observations are
    the old ones followed by additions, and the relations are unchanged. *)
Theorem addObservations_appends batch w graph :
  loadGraph w = (Return graph, w) →
  (∀ o, o ∈ batch → ObservationItem.entityName o ∈ entity_names graph) →
  ∃ results graph' w1,
    addObservations batch w = (Return results, w1) ∧
    loadGraph w1 = (Return graph', w1) ∧
    Forall2
      (λ o r, AddedItem.entityName r = ObservationItem.entityName o
              ∧ sublist (AddedItem.addedObservations r) (ObservationItem.contents o))
      batch results ∧
    extended (entities graph) (entities graph') ∧
    relations graph' = relations graph.
Proof.
  intros Hload Hall.
  destruct (add_each_success batch graph Hall)
    as (results & graph' & Hrun & Hres & Hext & Hrel).
  exists results, graph', (set_memory_file (Content (graph_lines graph')) w).
  split; [|split; [apply loadGraph_saved | auto]].
  unfold addObservations. rewrite (bind_Return _ _ _ _ _ Hload).
  rewrite (bind_Return _ _ w (results, graph') w) by (now rewrite lift_run, Hrun).
  reflexivity.
Qed.

Lemma addObservations_appends_witness :
  ∃ results graph' w1,
    addObservations
      [ObservationItem.mk "alice" ["tall"; "likes tea"]; ObservationItem.mk "alice" ["tall"]]
      alice_world
    = (Return results, w1) ∧
    loadGraph w1 = (Return graph', w1) ∧
    Forall2
      (λ o r, AddedItem.entityName r = ObservationItem.entityName o
              ∧ sublist (AddedItem.addedObservations r) (ObservationItem.contents o))
      [ObservationItem.mk "alice" ["tall"; "likes tea"]; ObservationItem.mk "alice" ["tall"]]
      results ∧
    extended (entities alice_graph) (entities graph') ∧
    relations graph' = relations alice_graph.
Proof.
  apply (addObservations_appends
           [ObservationItem.mk "alice" ["tall"; "likes tea"];
            ObservationItem.mk "alice" ["tall"]]
           alice_world alice_graph eq_refl).
  intros o Ho.
  apply elem_of_cons in Ho as [->|Ho]; [left|].
  apply list_elem_of_singleton in Ho as ->. left.
Defined.

Lemma NoDup_List_filter {A} (f : A → bool) (l : list A) :
  NoDup l → NoDup (List.filter f l).
Proof.
  induction 1 as [|x l Hx Hl IH]; cbn; [constructor|].
  destruct (f x); [|exact IH]. constructor; [|exact IH].
  rewrite list_elem_of_In, filter_In, <- list_elem_of_In. now intros [? _].
Qed.

Definition observations_distinct (es : list Entity) : Prop :=
  Forall (λ e, NoDup (Entity.observations e)) es.

Lemma push_observations_distinct n entity new es :
  List.find (λ e, String.eqb (Entity.name e) n) es = Some entity →
  observations_distinct es →
  NoDup new → (∀ x, x ∈ new → x ∉ Entity.observations entity) →
  observations_distinct (push_observations n new es).
Proof.
  intros Hfind Hes Hnew Hfresh. induction Hes as [|e es He Hes IH]; [constructor|].
  cbn [push_observations List.find] in *.
  destruct (String.eqb (Entity.name e) n).
  - injection Hfind as ->. constructor; [|exact Hes]. cbn.
    apply NoDup_app. split; [exact He|]. split; [|exact Hnew].
    intros x Hx Hx'. exact (Hfresh x Hx' Hx).
  - constructor; [exact He | now apply IH].
Qed.

Lemma add_each_distinct batch graph results graph' :
  add_each batch graph = Return (results, graph') →
  observations_distinct (entities graph) →
  Forall (λ o, NoDup (ObservationItem.contents o)) batch →
  observations_distinct (entities graph').
Proof.
  revert graph results. induction batch as [|o batch IH];
    intros graph results Hrun Hgraph Hbatch.
  - now injection Hrun as _ <-.
  - destruct (List.find (λ e, String.eqb (Entity.name e) (ObservationItem.entityName o))
                (entities graph)) as [entity|] eqn:Hfind.
    2:{ cbn [add_each] in Hrun. now rewrite Hfind in Hrun. }
    rewrite (add_each_cons o batch graph entity Hfind) in Hrun.
    match type of Hrun with
    | context [add_each batch ?g] =>
        destruct (add_each batch g) as [[results' graph'']|] eqn:Hrest; [|discriminate]
    end.
    injection Hrun as _ <-.
    apply Forall_cons in Hbatch as [Ho Hbatch].
    apply (IH _ _ Hrest); [|exact Hbatch]. cbn [entities].
    apply (push_observations_distinct _ entity); [exact Hfind | exact Hgraph | |].
    + now apply NoDup_List_filter.
    + intros x Hx. now apply new_observations_spec in Hx.
Qed.

(** X9. [addObservations] keeps observations free of repetition when the
    batch is: if no entity of the loaded graph has a repeated observation,
    no item of the batch repeats a string in its contents, and every item
    names an entity of the graph, then the call succeeds and no entity of
    the stored graph has a repeated observation (also when several items
    name the same entity). *)
Theorem addObservations_keeps_distinct batch w graph :
  loadGraph w = (Return graph, w) →
  (∀ o, o ∈ batch → ObservationItem.entityName o ∈ entity_names graph) →
  observations_distinct (entities graph) →
  Forall (λ o, NoDup (ObservationItem.contents o)) batch →
  ∃ results graph' w1,
    addObservations batch w = (Return results, w1) ∧
    loadGraph w1 = (Return graph', w1) ∧
    observations_distinct (entities graph').
Proof.
  intros Hload Hall Hgraph Hbatch.
  destruct (add_each_success batch graph Hall) as (results & graph' & Hrun & _).
  exists results, graph', (set_memory_file (Content (graph_lines graph')) w).
  split; [|split; [apply loadGraph_saved|]].
  - unfold addObservations. rewrite (bind_Return _ _ _ _ _ Hload).
    rewrite (bind_Return _ _ w (results, graph') w) by (now rewrite lift_run, Hrun).
    reflexivity.
  - exact (add_each_distinct batch graph results graph' Hrun Hgraph Hbatch).
Qed.

Lemma addObservations_keeps_distinct_witness :
  ∃ results graph' w1,
    addObservations
      [ObservationItem.mk "alice" ["tall"; "likes tea"]; ObservationItem.mk "alice" ["tall"]]
      alice_world
    = (Return results, w1) ∧
    loadGraph w1 = (Return graph', w1) ∧
    observations_distinct (entities graph').
Proof.
  apply (addObservations_keeps_distinct
           [ObservationItem.mk "alice" ["tall"; "likes tea"];
            ObservationItem.mk "alice" ["tall"]]
           alice_world alice_graph eq_refl).
  - intros o Ho.
    apply elem_of_cons in Ho as [->|Ho]; [left|].
    apply list_elem_of_singleton in Ho as ->. left.
  - repeat constructor. apply not_elem_of_nil.
  - repeat constructor; cbn.
    + intros H. apply list_elem_of_singleton in H. discriminate.
    + apply not_elem_of_nil.
    + apply not_elem_of_nil.
Defined.

(** All contents of the item are recorded on the entity that a lookup of
    its name finds. *)
Definition settled (es : list Entity) (o : ObservationItem) : Prop :=
  ∃ entity,
    List.find (λ e, String.eqb (Entity.name e) (ObservationItem.entityName o)) es
    = Some entity
    ∧ ∀ c, c ∈ ObservationItem.contents o → c ∈ Entity.observations entity.

Lemma settled_push es o n new :
  settled es o → settled (push_observations n new es) o.
Proof.
  intros (entity & Hfind & Hall).
  unfold settled. rewrite find_push, Hfind. cbn.
  eexists. split; [reflexivity|]. intros c Hc.
  destruct (String.eqb _ n); [|now apply Hall].
  cbn. apply elem_of_app. left. now apply Hall.
Qed.

Lemma add_each_settles batch graph results graph' o :
  add_each batch graph = Return (results, graph') →
  o ∈ batch ∨ settled (entities graph) o →
  settled (entities graph') o.
Proof.
  revert graph results. induction batch as [|o1 batch IH]; intros graph results Hrun Ho.
  - injection Hrun as _ <-. destruct Ho as [Ho|Ho]; [|exact Ho].
    now apply elem_of_nil in Ho.
  - destruct (List.find (λ e, String.eqb (Entity.name e) (ObservationItem.entityName o1))
                (entities graph)) as [entity|] eqn:Hfind.
    2:{ cbn [add_each] in Hrun. now rewrite Hfind in Hrun. }
    rewrite (add_each_cons o1 batch graph entity Hfind) in Hrun.
    match type of Hrun with
    | context [add_each batch ?g] =>
        destruct (add_each batch g) as [[results' graph'']|] eqn:Hrest; [|discriminate]
    end.
    injection Hrun as _ <-.
    apply (IH _ _ Hrest). cbn [entities].
    destruct Ho as [Ho|Ho]; [|right; now apply settled_push].
    apply elem_of_cons in Ho as [->|Ho]; [right | now left].
    unfold settled. rewrite find_push, Hfind, String.eqb_refl. cbn.
    eexists. split; [reflexivity|]. intros c Hc. cbn. apply elem_of_app.
    destruct (decide (c ∈ Entity.observations entity)) as [Hin|Hout]; [now left|].
    right. now apply new_observations_spec.
Qed.

Lemma add_each_settled batch graph :
  (∀ o, o ∈ batch → settled (entities graph) o) →
  add_each batch graph
  = Return ((λ o, AddedItem.mk (ObservationItem.entityName o) []) <$> batch, graph).
Proof.
  induction batch as [|o batch IH]; intros Hall; [reflexivity|].
  destruct (Hall o (list_elem_of_here _ _)) as (entity & Hfind & Hin).
  rewrite (add_each_cons o batch graph entity Hfind).
  assert (new_observations entity (ObservationItem.contents o) = []) as ->.
  { apply filter_all_false. intros c Hc. apply negb_false_iff.
    apply array_includes_spec, Hin. now apply list_elem_of_In. }
  rewrite push_observations_nil.
  replace {| entities := entities graph; relations := relations graph |}
    with graph by now destruct graph.
  rewrite IH; [reflexivity|]. intros o' Ho'. apply Hall. now right.
Qed.

(** X10. Repeating an [addObservations] call that succeeded, with the same
    batch, records nothing more: every [addedObservations] of the second
    call is empty and the graph file stays as the first call wrote it. *)
Theorem addObservations_idempotent batch w graph :
  loadGraph w = (Return graph, w) →
  (∀ o, o ∈ batch → ObservationItem.entityName o ∈ entity_names graph) →
  ∃ results w1,
    addObservations batch w = (Return results, w1) ∧
    addObservations batch w1
    = (Return ((λ o, AddedItem.mk (ObservationItem.entityName o) []) <$> batch), w1).
Proof.
  intros Hload Hall.
  destruct (add_each_success batch graph Hall) as (results & graph' & Hrun & _).
  exists results, (set_memory_file (Content (graph_lines graph')) w). split.
  - unfold addObservations. rewrite (bind_Return _ _ _ _ _ Hload).
    rewrite (bind_Return _ _ w (results, graph') w) by (now rewrite lift_run, Hrun).
    reflexivity.
  - assert (add_each batch graph'
            = Return ((λ o, AddedItem.mk (ObservationItem.entityName o) []) <$> batch,
                      graph')) as Hagain.
    { apply add_each_settled. intros o Ho.
      apply (add_each_settles batch graph results graph' o Hrun). now left. }
    unfold addObservations.
    rewrite (bind_Return _ _ _ _ _ (loadGraph_saved graph' w)).
    rewrite (bind_Return _ _ _ _ _ (f_equal (λ r, (r, _)) Hagain)).
    reflexivity.
Qed.

Lemma addObservations_idempotent_witness :
  ∃ results w1,
    addObservations [ObservationItem.mk "alice" ["tall"; "tall"]] alice_world
    = (Return results, w1) ∧
    addObservations [ObservationItem.mk "alice" ["tall"; "tall"]] w1
    = (Return [AddedItem.mk "alice" []], w1).
Proof.
  apply (addObservations_idempotent
           [ObservationItem.mk "alice" ["tall"; "tall"]] alice_world alice_graph eq_refl).
  intros o Ho. apply list_elem_of_singleton in Ho as ->. left.
Defined.

(** ** searchNodes *)

Lemma filter_all_true {A} (f : A → bool) (l : list A) :
  (∀ x, In x l → f x = true) → List.filter f l = l.
Proof.
  induction l as [|x l IH]; intros H; [reflexivity|]. cbn.
  rewrite (H x (or_introl eq_refl)). f_equal. apply IH. intros y Hy. apply H. now right.
Qed.

Lemma starts_with_empty s : starts_with s "" = true.
Proof. now destruct s. Qed.

Lemma includes_empty s : includes s "" = true.
Proof. destruct s; cbn; now rewrite ?starts_with_empty. Qed.

Lemma searchNodes_run toLowerCase q w graph :
  loadGraph w = (Return graph, w) →
  let found := List.filter (entity_matches toLowerCase q) (entities graph) in
  searchNodes toLowerCase q w
  = (Return
       {| entities := found;
          relations :=
            List.filter
              (λ r, bool_decide (Relation.from r ∈ (list_to_set (Entity.name <$> found) : gset string))
                    && bool_decide (Relation.to r ∈ (list_to_set (Entity.name <$> found) : gset string)))
              (relations graph) |}, w).
Proof.
  intros Hload. unfold searchNodes. now rewrite (bind_Return _ _ _ _ _ Hload).
Qed.

(** X11. With a lower-casing that maps the empty string to itself, the
    empty query matches everything: the search returns every entity of the
    graph, and the relations whose two endpoints are names of entities of
    the graph. *)
Theorem searchNodes_empty_query toLowerCase w graph :
  toLowerCase ""%string = ""%string →
  loadGraph w = (Return graph, w) →
  ∃ found,
    searchNodes toLowerCase "" w = (Return found, w) ∧
    entities found = entities graph ∧
    ∀ r, r ∈ relations found ↔
         r ∈ relations graph
         ∧ Relation.from r ∈ entity_names graph
         ∧ Relation.to r ∈ entity_names graph.
Proof.
  intros Hlower Hload. eexists.
  split; [apply (searchNodes_run toLowerCase "" w graph Hload)|].
  assert (List.filter (entity_matches toLowerCase "") (entities graph) = entities graph)
    as Hall.
  { apply filter_all_true. intros e _. unfold entity_matches.
    now rewrite Hlower, includes_empty. }
  cbn [entities relations]. rewrite Hall. split; [reflexivity|].
  intros r. unfold entity_names.
  rewrite list_elem_of_In, filter_In, <- list_elem_of_In.
  rewrite andb_true_iff, !bool_decide_eq_true, !elem_of_list_to_set.
  reflexivity.
Qed.

Lemma searchNodes_empty_query_witness :
  ∃ found,
    searchNodes ascii_toLowerCase ""
      (set_memory_file (Content [EntityLine alice; RelationLine knows]) fresh_world)
    = (Return found,
       set_memory_file (Content [EntityLine alice; RelationLine knows]) fresh_world) ∧
    entities found = [alice] ∧
    ∀ r, r ∈ relations found ↔
         r ∈ [knows]
         ∧ Relation.from r ∈ entity_names {| entities := [alice]; relations := [knows] |}
         ∧ Relation.to r ∈ entity_names {| entities := [alice]; relations := [knows] |}.
Proof.
  apply (searchNodes_empty_query ascii_toLowerCase
           (set_memory_file (Content [EntityLine alice; RelationLine knows]) fresh_world)
           {| entities := [alice]; relations := [knows] |} eq_refl eq_refl).
Defined.

(** X12. A relation with an endpoint that names no entity of the graph is
    returned by no search, whatever the query. *)
Theorem searchNodes_drops_dangling toLowerCase q w graph found (r : Relation) :
  loadGraph w = (Return graph, w) →
  searchNodes toLowerCase q w = (Return found, w) →
  Relation.from r ∉ entity_names graph ∨ Relation.to r ∉ entity_names graph →
  r ∉ relations found.
Proof.
  intros Hload Hrun Hdangling Hin.
  rewrite (searchNodes_run toLowerCase q w graph Hload) in Hrun.
  injection Hrun as <-. cbn [relations] in Hin.
  apply list_elem_of_In, filter_In in Hin as [_ Hin].
  apply andb_true_iff in Hin as [Hfrom Hto].
  apply bool_decide_eq_true, elem_of_list_to_set, list_elem_of_fmap in Hfrom
    as (e1 & He1 & Hin1).
  apply bool_decide_eq_true, elem_of_list_to_set, list_elem_of_fmap in Hto
    as (e2 & He2 & Hin2).
  apply list_elem_of_In, filter_In in Hin1 as [Hin1 _].
  apply list_elem_of_In, filter_In in Hin2 as [Hin2 _].
  unfold entity_names in Hdangling.
  destruct Hdangling as [H|H]; apply H; apply list_elem_of_fmap; eexists;
    (split; [eassumption | now apply list_elem_of_In]).
Qed.

Lemma searchNodes_drops_dangling_witness :
  ∃ found,
    searchNodes ascii_toLowerCase "alice"
      (set_memory_file (Content [EntityLine alice; RelationLine knows]) fresh_world)
    = (Return found,
       set_memory_file (Content [EntityLine alice; RelationLine knows]) fresh_world)
    ∧ (knows ∉ relations found).
Proof.
  exists {| entities := [alice]; relations := [] |}.
  assert (searchNodes ascii_toLowerCase "alice"
            (set_memory_file (Content [EntityLine alice; RelationLine knows]) fresh_world)
          = (Return {| entities := [alice]; relations := [] |},
             set_memory_file (Content [EntityLine alice; RelationLine knows]) fresh_world))
    as Hrun by reflexivity.
  split; [exact Hrun|].
  apply (searchNodes_drops_dangling ascii_toLowerCase "alice"
           (set_memory_file (Content [EntityLine alice; RelationLine knows]) fresh_world)
           {| entities := [alice]; relations := [knows] |} _ knows eq_refl Hrun).
  right. intros H. apply list_elem_of_singleton in H. discriminate.
Defined.

(** X13. As long as there is no graph file, every search returns the empty
    graph, without error, and creates no file. *)
Theorem searchNodes_without_file toLowerCase q w :
  memory_file w = NoFile →
  searchNodes toLowerCase q w = (Return empty_graph, w).
Proof.
  intros Hfile.
  now rewrite (searchNodes_run toLowerCase q w empty_graph (loadGraph_NoFile w Hfile)).
Qed.

Lemma searchNodes_without_file_witness :
  searchNodes ascii_toLowerCase "tea" fresh_world = (Return empty_graph, fresh_world).
Proof. apply (searchNodes_without_file ascii_toLowerCase "tea" fresh_world eq_refl). Defined.

(** ** storeThought *)

(** X14. On a chain file that is absent or holds a JSON object of chains
    whose numbers are all finite and not [-0], for a thought with such
    numbers: the first append under an identifier (the non-empty
    [branchId], or else the generated one) that the file does not have as
    a key and that is no member name of [Object.prototype] creates the
    chain.  Its [id] is the identifier, its context the request's
    non-empty context or ["default"], and it holds the stamped thought
    alone, in [thoughts] or in the one branch the routing selects.
    [createdAt], [updatedAt] and the thought's timestamp are the first,
    third and fourth clock value read after the identifier was fixed. *)
Theorem storeThought_creates_chain input w thinking :
  loadThinking w = (Return thinking, w) →
  json_store thinking →
  json_thought input = true →
  thinking !! chain_id_of input w = None →
  chain_id_of input w ∉ Object_prototype_keys →
  ∃ chain w' k,
    storeThought input w = (Return (chain_id_of input w), w') ∧
    thinking_file w' = Content (Parsed (<[chain_id_of input w := chain]> thinking)) ∧
    k = clock_reads (after_id input w) ∧
    ThoughtChain.id chain = chain_id_of input w ∧
    ThoughtChain.context chain = default "default"%string (nonempty (context input)) ∧
    ThoughtChain.createdAt chain = clock w k ∧
    ThoughtChain.updatedAt chain = clock w (2 + k)%nat ∧
    match routed_branch input with
    | None =>
        ThoughtChain.thoughts chain = [set_timestamp input (clock w (3 + k)%nat)]
        ∧ ThoughtChain.branches chain = ∅
    | Some b =>
        ThoughtChain.thoughts chain = []
        ∧ ThoughtChain.branches chain
          = {[ b := [set_timestamp input (clock w (3 + k)%nat)] ]}
    end.
Proof.
  intros Hload _ _ Hnew Hplain.
  exists (stored_chain input thinking w), (after_store input thinking w),
    (clock_reads (after_id input w)).
  split; [apply storeThought_run; [exact Hload | now apply lookups_plain_intro]|].
  split; [reflexivity|]. split; [reflexivity|].
  unfold stored_chain, chain_before, after_create. rewrite Hnew.
  destruct (routed_branch input) as [b|]; cbn; repeat split.
Qed.

Lemma storeThought_creates_chain_witness :
  ∃ chain w',
    storeThought
      (thought_input (number_of_Z 1) None None (Some "topic"%string) None None)
      fresh_world
    = (Return "loyw3v28k3x9q"%string, w') ∧
    thinking_file w' = Content (Parsed (<["loyw3v28k3x9q"%string := chain]> ∅)) ∧
    ThoughtChain.id chain = "loyw3v28k3x9q"%string ∧
    ThoughtChain.context chain = "topic"%string ∧
    ThoughtChain.createdAt chain = 1700000000001 ∧
    ThoughtChain.updatedAt chain = 1700000000003 ∧
    ThoughtChain.thoughts chain
    = [set_timestamp
         (thought_input (number_of_Z 1) None None (Some "topic"%string) None None)
         1700000000004]
    ∧ ThoughtChain.branches chain = ∅.
Proof.
  destruct (storeThought_creates_chain
              (thought_input (number_of_Z 1) None None (Some "topic"%string) None None)
              fresh_world ∅)
    as (chain & w' & k & Hrun & Hfile & Hk & Hid & Hcontext & Hcreated & Hupdated & Hseq).
  - reflexivity.
  - exact json_store_empty.
  - reflexivity.
  - reflexivity.
  - now apply not_prototype_key.
  - subst k. exists chain, w'.
    split; [exact Hrun|]. split; [exact Hfile|]. split; [exact Hid|].
    split; [exact Hcontext|]. split; [exact Hcreated|]. split; [exact Hupdated|].
    exact Hseq.
Defined.

(** X15. An identifier that is a member name of [Object.prototype]
    (["constructor"], ["toString"], ["__proto__"], ...) and that the chain
    file does not hold as a key cannot be appended to: the lookup yields
    the inherited member, no chain is created, and [storeThought] throws a
    [TypeError]; neither file is written. *)
Theorem storeThought_prototype_key input w thinking :
  loadThinking w = (Return thinking, w) →
  chain_id_of input w ∈ Object_prototype_keys →
  thinking !! chain_id_of input w = None →
  ∃ message w',
    storeThought input w = (Throw (TypeError message), w') ∧
    thinking_file w' = thinking_file w ∧
    memory_file w' = memory_file w.
Proof.
  intros Hload Hproto Hnone.
  unfold storeThought. rewrite (bind_Return _ _ _ _ _ Hload).
  rewrite (bind_Return _ _ _ _ _ (resolve_id input w)).
  assert (get_property thinking (chain_id_of input w) = Inherited) as Hget.
  { unfold get_property. rewrite Hnone. now rewrite bool_decide_eq_true_2. }
  rewrite Hget.
  unfold bind at 1. cbn [ret].
  unfold bind at 1. cbn [Date_now]. unfold bind at 1. cbn [Date_now].
  rewrite Hget. unfold throw. eexists _, _. split; [reflexivity|].
  unfold after_id. now destruct (nonempty (branchId input)).
Qed.

Lemma storeThought_prototype_key_witness :
  ∃ message w',
    storeThought
      (thought_input (number_of_Z 1) None (Some "constructor"%string) None None None)
      fresh_world
    = (Throw (TypeError message), w') ∧
    thinking_file w' = thinking_file fresh_world ∧
    memory_file w' = memory_file fresh_world.
Proof.
  apply (storeThought_prototype_key
           (thought_input (number_of_Z 1) None (Some "constructor"%string) None None None)
           fresh_world ∅).
  - reflexivity.
  - left.
  - reflexivity.
Defined.

(** X16. When the chain file cannot be loaded (a read error other than "no
    such file", or a document that does not parse), [storeThought] throws
    that error before anything else: no identifier is generated, the clock
    is not read, and the file is left as it is. *)
Theorem storeThought_load_error input w e :
  fst (loadThinking w) = Throw e →
  storeThought input w = (Throw e, w).
Proof.
  intros Hload. unfold storeThought. apply bind_Throw.
  pose proof (loadThinking_world w) as Hw.
  destruct (loadThinking w) as [o w1]. cbn in *. now subst.
Qed.

Lemma storeThought_load_error_witness :
  storeThought (thought_input (number_of_Z 1) None None None None None)
    (set_thinking_file (Content Unparsable) fresh_world)
  = (Throw (SyntaxError "Unexpected token in JSON"),
     set_thinking_file (Content Unparsable) fresh_world).
Proof.
  apply (storeThought_load_error
           (thought_input (number_of_Z 1) None None None None None)
           (set_thinking_file (Content Unparsable) fresh_world)
           (SyntaxError "Unexpected token in JSON") eq_refl).
Defined.

(** X17. On a chain file that is absent or holds a JSON object of chains
    whose numbers are all finite and not [-0], for two thoughts with such
    numbers: two appends in a row under the same non-empty [branchId] that
    is no member name of [Object.prototype], neither routed to a branch,
    both return that identifier and extend the [thoughts] of that one
    chain (empty if the first append created it) by the two stamped
    thoughts in call order; the two [updatedAt] values are clock values
    read in that order. *)
Theorem storeThought_twice first second b w thinking :
  loadThinking w = (Return thinking, w) →
  json_store thinking →
  json_thought first = true → json_thought second = true →
  nonempty (branchId first) = Some b → nonempty (branchId second) = Some b →
  routed_branch first = None → routed_branch second = None →
  b ∉ Object_prototype_keys →
  ∃ w1 w2 chain1 chain2 k1 k2,
    storeThought first w = (Return b, w1) ∧
    storeThought second w1 = (Return b, w2) ∧
    thinking_file w1 = Content (Parsed (<[b := chain1]> thinking)) ∧
    thinking_file w2 = Content (Parsed (<[b := chain2]> thinking)) ∧
    ThoughtChain.thoughts chain2
    = ThoughtChain.thoughts (chain_before first thinking w)
      ++ [set_timestamp first (clock w (S k1)); set_timestamp second (clock w (S k2))] ∧
    ThoughtChain.updatedAt chain1 = clock w k1 ∧
    ThoughtChain.updatedAt chain2 = clock w k2 ∧
    (k1 < k2)%nat.
Proof.
  intros Hload _ _ _ Hfirst Hsecond Hroute1 Hroute2 Hplain.
  assert (∀ w0, chain_id_of first w0 = b) as Hid1
    by (intros w0; unfold chain_id_of; now rewrite Hfirst).
  assert (∀ w0, chain_id_of second w0 = b) as Hid2
    by (intros w0; unfold chain_id_of; now rewrite Hsecond).
  pose proof (storeThought_run first w thinking Hload) as Hrun1.
  rewrite Hid1 in Hrun1.
  specialize (Hrun1 (lookups_plain_intro _ _ _ ltac:(now rewrite Hid1))).
  set (w1 := after_store first thinking w) in *.
  set (chain1 := stored_chain first thinking w).
  assert (loadThinking w1 = (Return (<[b := chain1]> thinking), w1)) as Hload1.
  { apply loadThinking_Parsed. unfold w1, after_store. now rewrite Hid1. }
  pose proof (storeThought_run second w1 _ Hload1) as Hrun2.
  rewrite Hid2 in Hrun2.
  specialize (Hrun2 (lookups_plain_intro _ _ _ ltac:(now rewrite Hid2))).
  assert (clock w1 = clock w) as Hclock.
  { unfold w1, after_store, after_create, after_id. cbn.
    now destruct (thinking !! _), (nonempty (branchId first)). }
  assert (chain_before second (<[b := chain1]> thinking) w1 = chain1) as Hbefore.
  { unfold chain_before. now rewrite Hid2, lookup_insert_eq. }
  assert (after_create second (<[b := chain1]> thinking) w1 = w1) as Hafter.
  { unfold after_create, after_id. now rewrite Hid2, lookup_insert_eq, Hsecond. }
  exists w1, (after_store second (<[b := chain1]> thinking) w1), chain1,
    (stored_chain second (<[b := chain1]> thinking) w1),
    (clock_reads (after_create first thinking w)), (clock_reads w1).
  split; [exact Hrun1|]. split; [exact Hrun2|].
  split; [unfold w1, after_store; now rewrite Hid1|].
  split; [unfold after_store; cbn; now rewrite Hid2, insert_insert_eq|].
  unfold stored_chain at 1 2. rewrite Hbefore, Hafter, Hroute2, Hclock.
  unfold chain1, stored_chain. rewrite Hroute1. cbn.
  split; [now rewrite <- app_assoc|]. repeat split. lia.
Qed.

Lemma storeThought_twice_witness :
  ∃ w1 w2 chain1 chain2 k1 k2,
    storeThought (thought_input (number_of_Z 2) None (Some "main"%string) None None None)
      main_world = (Return "main"%string, w1) ∧
    storeThought (thought_input (number_of_Z 3) None (Some "main"%string) None None None)
      w1 = (Return "main"%string, w2) ∧
    thinking_file w1
    = Content (Parsed (<["main"%string := chain1]> {[ "main"%string := main_chain ]})) ∧
    thinking_file w2
    = Content (Parsed (<["main"%string := chain2]> {[ "main"%string := main_chain ]})) ∧
    ThoughtChain.thoughts chain2
    = ThoughtChain.thoughts main_chain
      ++ [set_timestamp
            (thought_input (number_of_Z 2) None (Some "main"%string) None None None)
            (sample_clock (S k1));
          set_timestamp
            (thought_input (number_of_Z 3) None (Some "main"%string) None None None)
            (sample_clock (S k2))] ∧
    ThoughtChain.updatedAt chain1 = sample_clock k1 ∧
    ThoughtChain.updatedAt chain2 = sample_clock k2 ∧
    (k1 < k2)%nat.
Proof.
  exact (storeThought_twice
           (thought_input (number_of_Z 2) None (Some "main"%string) None None None)
           (thought_input (number_of_Z 3) None (Some "main"%string) None None None)
           "main" main_world {[ "main"%string := main_chain ]}
           eq_refl main_world_json eq_refl eq_refl
           eq_refl eq_refl eq_refl eq_refl
           (not_prototype_key "main" eq_refl)).
Defined.

(** ** Lookup and search of chains *)

(** The value of [thinking[id] || null]: a chain record, a member that a
    plain object inherits (for a key such as ["constructor"] that the map
    does not hold), or [null]. *)
Inductive chain_or_null : Type :=
  | FoundChain (chain : ThoughtChain)
  | InheritedMember
  | Null.

Definition getThoughtChain (id : string) : M chain_or_null :=
  thinking ←' loadThinking;
  ret (match get_property thinking id with
       | Own chain => FoundChain chain
       | Inherited => InheritedMember
       | Undefined => Null
       end).

Section SearchThinking.

Variable toLowerCase : string → string.

(** [Object.values]: the values of the own properties, in property order. *)
Variable Object_values : gmap string ThoughtChain → list ThoughtChain.

Definition chain_matches (query : string) (chain : ThoughtChain) : bool :=
  includes (toLowerCase (ThoughtChain.context chain)) (toLowerCase query)
  || existsb (λ t, includes (toLowerCase (thought t)) (toLowerCase query))
       (ThoughtChain.thoughts chain).

Definition searchThinking (query : string) : M (list ThoughtChain) :=
  thinking ←' loadThinking;
  ret (List.filter (chain_matches query) (Object_values thinking)).

End SearchThinking.

(** The values of a map in the order of its keys' encoding: what
    [Object.values] lists, up to order. *)
Definition map_values (m : gmap string ThoughtChain) : list ThoughtChain :=
  (map_to_list m).*2.

Lemma map_values_spec (m : gmap string ThoughtChain) (chain : ThoughtChain) :
  chain ∈ map_values m ↔ ∃ key, m !! key = Some chain.
Proof.
  unfold map_values. rewrite list_elem_of_fmap. split.
  - intros ([key c] & -> & Hin). exists key. now apply elem_of_map_to_list.
  - intros [key H]. exists (key, chain). split; [reflexivity|].
    now apply elem_of_map_to_list.
Qed.

(** X18. On a chain file that is absent or holds a JSON object of chains
    whose numbers are all finite and not [-0], for a thought with such
    numbers: after [storeThought] has returned an identifier,
    [getThoughtChain] of that identifier yields the chain, and the input
    stamped with the last clock value the append read is the last element
    of its [thoughts], or of the branch it was routed to. *)
Theorem getThoughtChain_after_storeThought input w thinking id w' :
  loadThinking w = (Return thinking, w) →
  json_store thinking →
  json_thought input = true →
  storeThought input w = (Return id, w') →
  ∃ chain,
    getThoughtChain id w' = (Return (FoundChain chain), w') ∧
    match routed_branch input with
    | None =>
        last (ThoughtChain.thoughts chain)
        = Some (set_timestamp input (clock w (Nat.pred (clock_reads w'))))
    | Some b =>
        ∃ branch,
          ThoughtChain.branches chain !! b = Some branch
          ∧ last branch
            = Some (set_timestamp input (clock w (Nat.pred (clock_reads w'))))
    end.
Proof.
  intros Hload _ _ Hrun.
  destruct (storeThought_inv _ _ _ _ Hrun) as (thinking' & Hload' & Hplain).
  assert (thinking' = thinking) as -> by congruence.
  rewrite (storeThought_run input w thinking Hload Hplain) in Hrun.
  injection Hrun as <- <-.
  exists (stored_chain input thinking w).
  split.
  - unfold getThoughtChain.
    rewrite (bind_Return _ _ _ _ _
               (loadThinking_Parsed (after_store input thinking w) _ eq_refl)).
    unfold get_property. now rewrite lookup_insert_eq.
  - unfold stored_chain, append_to.
    destruct (routed_branch input) as [b|]; cbn.
    + eexists. rewrite lookup_insert_eq. split; [reflexivity | apply last_snoc].
    + apply last_snoc.
Qed.

Lemma getThoughtChain_after_storeThought_witness :
  ∃ chain,
    getThoughtChain "main"
      (snd (storeThought
              (thought_input (number_of_Z 2) (Some (number_of_Z 1))
                 (Some "main"%string) None None None) main_world))
    = (Return (FoundChain chain),
       snd (storeThought
              (thought_input (number_of_Z 2) (Some (number_of_Z 1))
                 (Some "main"%string) None None None) main_world)) ∧
    ∃ branch, ThoughtChain.branches chain !! "main"%string = Some branch
              ∧ last branch
                = Some (set_timestamp
                          (thought_input (number_of_Z 2) (Some (number_of_Z 1))
                             (Some "main"%string) None None None)
                          1700000000001).
Proof.
  exact (getThoughtChain_after_storeThought
           (thought_input (number_of_Z 2) (Some (number_of_Z 1))
              (Some "main"%string) None None None)
           main_world {[ "main"%string := main_chain ]} "main" _
           eq_refl main_world_json eq_refl eq_refl).
Defined.

(** X19. On a chain file that loads, [searchThinking] returns exactly the
    stored chains whose lower-cased context, or the lower-cased text of one
    thought of their main [thoughts] sequence, contains the lower-cased
    query; thoughts stored in branches are not looked at. *)
Theorem searchThinking_matches toLowerCase Object_values q w thinking :
  (∀ m chain, chain ∈ Object_values m ↔ ∃ key, m !! key = Some chain) →
  loadThinking w = (Return thinking, w) →
  ∃ found,
    searchThinking toLowerCase Object_values q w = (Return found, w) ∧
    ∀ chain,
      chain ∈ found ↔
      (∃ key, thinking !! key = Some chain)
      ∧ (is_substring (toLowerCase q) (toLowerCase (ThoughtChain.context chain))
         ∨ ∃ t, t ∈ ThoughtChain.thoughts chain
                ∧ is_substring (toLowerCase q) (toLowerCase (thought t))).
Proof.
  intros Hvalues Hload. eexists. split.
  - unfold searchThinking. now rewrite (bind_Return _ _ _ _ _ Hload).
  - intros chain.
    rewrite list_elem_of_In, filter_In, <- list_elem_of_In, Hvalues.
    unfold chain_matches. rewrite orb_true_iff, includes_spec, existsb_exists.
    split; intros [Hkey Hmatch]; (split; [exact Hkey|]).
    + destruct Hmatch as [H|(t & Ht & H)]; [now left | right].
      exists t. split; [now apply list_elem_of_In | now apply includes_spec].
    + destruct Hmatch as [H|(t & Ht & H)]; [now left | right].
      exists t. split; [now apply list_elem_of_In | now apply includes_spec].
Qed.

Lemma searchThinking_matches_witness :
  ∃ found,
    searchThinking ascii_toLowerCase map_values "TOPIC" main_world
    = (Return found, main_world) ∧
    main_chain ∈ found.
Proof.
  destruct (searchThinking_matches ascii_toLowerCase map_values "TOPIC" main_world
              {[ "main"%string := main_chain ]} map_values_spec eq_refl)
    as (found & Hrun & Hfound).
  exists found. split; [exact Hrun|]. apply Hfound. split.
  - exists "main"%string. reflexivity.
  - left. apply includes_spec. reflexivity.
Defined.

(** ** processThought *)

Lemma loadGraph_same_file w w2 :
  memory_file w2 = memory_file w → loadGraph w2 = (fst (loadGraph w), w2).
Proof.
  intros Hfile. unfold loadGraph, try_catch, bind, readFile, lift, ret, throw.
  rewrite Hfile. destruct (memory_file w) as [|code|data]; cbn.
  - reflexivity.
  - now destruct (String.eqb code "ENOENT").
  - destruct (reduce_lines _ _) as [graph|e]; cbn; [reflexivity|].
    now destruct (has_code e "ENOENT").
Qed.

Definition validation_messages : list string :=
  ["Invalid thought: must be a string";
   "Invalid thoughtNumber: must be a number";
   "Invalid totalThoughts: must be a number";
   "Invalid nextThoughtNeeded: must be a boolean"]%string.

(** The guards throw one of the four messages, and nothing else throws. *)
Lemma validateInput_Throw data e :
  validateInput data = Throw e →
  ∃ message, e = Error message ∧ message ∈ validation_messages.
Proof.
  unfold validateInput, validation_messages.
  destruct (negb (truthy (raw_thought data)) || _) eqn:H1.
  { intros [= <-]. eexists. split; [reflexivity|]. left. }
  destruct (negb (truthy (raw_thoughtNumber data)) || _) eqn:H2.
  { intros [= <-]. eexists. split; [reflexivity|]. right; left. }
  destruct (negb (truthy (raw_totalThoughts data)) || _) eqn:H3.
  { intros [= <-]. eexists. split; [reflexivity|]. do 2 right; left. }
  destruct (negb (String.eqb (typeof (raw_nextThoughtNeeded data)) "boolean")) eqn:H4.
  { intros [= <-]. eexists. split; [reflexivity|]. do 3 right; left. }
  destruct (raw_thought data); cbn in H1; try discriminate H1;
    try (rewrite orb_true_r in H1; discriminate H1).
  destruct (raw_thoughtNumber data); cbn in H2; try discriminate H2;
    try (rewrite orb_true_r in H2; discriminate H2).
  destruct (raw_totalThoughts data); cbn in H3; try discriminate H3;
    try (rewrite orb_true_r in H3; discriminate H3).
  destruct (raw_nextThoughtNeeded data); cbn in H4; try discriminate H4.
  discriminate.
Qed.

(** The value of [request.params.arguments], which the handler types as
    [any]: absent ([undefined]), [null], or an object.  (Any other value
    reads like an object without the four required fields.) *)
Inductive call_arguments : Type :=
  | ArgumentsUndefined
  | ArgumentsNull
  | ArgumentsObject (data : RawInput).

(** The call that the request handler makes for the tool
    ["memory_thinking"]: [processThought(request.params.arguments)].  On
    [undefined] or [null], [validateInput] throws a [TypeError] at its
    first read, [data.thought], inside the [try] of [processThought], and
    the [catch] answers. *)
Definition call_memory_thinking (toLowerCase : string → string)
    (arguments : call_arguments) : M Response :=
  match arguments with
  | ArgumentsObject data => processThought toLowerCase data
  | ArgumentsUndefined =>
      try_catch
        (throw (TypeError "Cannot read properties of undefined (reading 'thought')"))
        (λ error,
           ret {| content := FailureText (error_message error) "failed";
                  isError := Some true |})
  | ArgumentsNull =>
      try_catch
        (throw (TypeError "Cannot read properties of null (reading 'thought')"))
        (λ error,
           ret {| content := FailureText (error_message error) "failed";
                  isError := Some true |})
  end.

(** X20. A call without arguments or with [null] for them, or with
    arguments in which [thought] is not a non-empty string, [thoughtNumber]
    or [totalThoughts] is not a number other than [0] and [NaN], or
    [nextThoughtNeeded] is not a boolean, gets the failure response with
    [isError: true]; its error text is the message of the [TypeError] in
    the first two cases and one of the four validation messages in the
    last.  The world is untouched: no file is written, the clock and the
    random generator are not read. *)
Theorem processThought_refuses_invalid toLowerCase arguments w :
  (∀ data,
     arguments = ArgumentsObject data →
     ¬ ((∃ s, raw_thought data = JString s ∧ s ≠ ""%string)
        ∧ (∃ n, raw_thoughtNumber data = JNumber n ∧ truthy_number n = true)
        ∧ (∃ n, raw_totalThoughts data = JNumber n ∧ truthy_number n = true)
        ∧ (∃ b, raw_nextThoughtNeeded data = JBoolean b))) →
  ∃ message,
    match arguments with
    | ArgumentsUndefined =>
        message = "Cannot read properties of undefined (reading 'thought')"%string
    | ArgumentsNull =>
        message = "Cannot read properties of null (reading 'thought')"%string
    | ArgumentsObject _ => message ∈ validation_messages
    end ∧
    call_memory_thinking toLowerCase arguments w
    = (Return {| content := FailureText message "failed"; isError := Some true |}, w).
Proof.
  intros Hbad. destruct arguments as [| |data].
  - eexists. split; reflexivity.
  - eexists. split; reflexivity.
  - specialize (Hbad data eq_refl).
    destruct (validateInput data) as [input|e] eqn:Hvalid.
    + exfalso. apply Hbad, validateInput_accepts. eauto.
    + destruct (validateInput_Throw data e Hvalid) as (message & -> & Hin).
      exists message. split; [exact Hin|].
      apply (processThought_invalid toLowerCase data (Error message) w Hvalid).
Qed.

Lemma processThought_refuses_invalid_witness :
  ∃ message,
    message ∈ validation_messages ∧
    call_memory_thinking ascii_toLowerCase
      (ArgumentsObject
         {| raw_thought := JString "A"; raw_thoughtNumber := JNumber (number_of_Z 1);
            raw_totalThoughts := JNumber (number_of_Z 3);
            raw_nextThoughtNeeded := JUndefined;
            raw_isRevision := None; raw_revisesThought := None;
            raw_branchFromThought := None; raw_branchId := None;
            raw_needsMoreThoughts := None; raw_context := Some "topic"%string;
            raw_timestamp := None; raw_storeInMemory := Some true;
            raw_retrieveFromMemory := Some true |})
      fresh_world
    = (Return {| content := FailureText message "failed"; isError := Some true |},
       fresh_world).
Proof.
  apply (processThought_refuses_invalid ascii_toLowerCase (ArgumentsObject _)).
  intros data [= <-] (_ & _ & _ & b & Hb). discriminate Hb.
Defined.






Lemma widen_totalThoughts_thought input :
  thought (widen_totalThoughts input) = thought input.
Proof. unfold widen_totalThoughts. now destruct (number_gt _ _). Qed.

Lemma loadGraph_after_store input thinking w graph :
  loadGraph w = (Return graph, w) →
  loadGraph (after_store input thinking w) = (Return graph, after_store input thinking w).
Proof.
  intros Hload.
  rewrite (loadGraph_same_file w) by apply after_create_memory.
  now rewrite Hload.
Qed.

(** X22. A request that passes validation with [storeInMemory] true and a
    non-empty context, on a graph file that loads, a chain file that is
    absent or holds a JSON object of chains, and a chain identifier (the
    non-empty [branchId], or else the generated one) that is no member
    name of [Object.prototype]: the request succeeds with [contextStored]
    true.  Afterwards the graph has an entity named after
    the context, of type ["ThoughtContext"] with the thought as its one
    observation, if no entity had that name; an entity that already has the
    name is left as it is (the new thought is not recorded on it).  The
    relation from the context to ["ThoughtChain_" + id] is added unless it
    is stored already.  The counts in [relevantContext] are those of the
    search on the graph as it was before the request. *)
Theorem processThought_stores_insight toLowerCase data input ctx w graph thinking :
  validateInput data = Return input →
  raw_storeInMemory data = Some true →
  raw_context data = Some ctx → ctx ≠ ""%string →
  loadGraph w = (Return graph, w) →
  loadThinking w = (Return thinking, w) →
  chain_id_of input w ∉ Object_prototype_keys →
  ∃ r w' graph',
    processThought toLowerCase data w
    = (Return {| content := ResultText r; isError := None |}, w') ∧
    contextStored r = true ∧
    thoughtChainId r = chain_id_of input w ∧
    loadGraph w' = (Return graph', w') ∧
    (ctx ∉ entity_names graph →
     entities graph'
     = entities graph ++ [Entity.mk ctx "ThoughtContext" [thought input]]) ∧
    (ctx ∈ entity_names graph → entities graph' = entities graph) ∧
    (∀ link,
       link = Relation.mk ctx ("ThoughtChain_" +:+ chain_id_of input w)
                "has_thinking_process" →
       (link ∉ relations graph → relations graph' = relations graph ++ [link])
       ∧ (link ∈ relations graph → relations graph' = relations graph)) ∧
    (∀ found,
       searchNodes toLowerCase ctx w = (Return found, w) →
       relevantContext r
       = if truthy_opt_bool (raw_retrieveFromMemory data)
         then Some {| entities_count := length (entities found);
                      relations_count := length (relations found) |}
         else None).
Proof.
  intros Hvalid Hstore Hctx Hne Hgraph Hload Hplain.
  destruct (validateInput_fields data input Hvalid)
    as (_ & _ & _ & _ & _ & _ & Hc & Hs & Hr).
  destruct (widen_totalThoughts_fields input) as (_ & _ & Hc' & Hs' & Hr').
  rewrite <- (chain_id_of_widen input w) in Hplain.
  pose proof (storeThought_run (widen_totalThoughts input) w thinking Hload
                (lookups_plain_intro _ _ _ Hplain)) as Hrun.
  rewrite (chain_id_of_widen input w) in Hrun.
  set (w2 := after_store (widen_totalThoughts input) thinking w) in *.
  set (entity := Entity.mk ctx "ThoughtContext" [thought input]).
  set (link := Relation.mk ctx ("ThoughtChain_" +:+ chain_id_of input w)
                 "has_thinking_process").
  pose proof (createEntities_run [entity] w2 graph
                (loadGraph_after_store _ thinking w graph Hgraph)) as Hentities.
  set (graph1 := {| entities := entities graph ++ new_entities graph [entity];
                    relations := relations graph |}) in *.
  set (w3 := set_memory_file (Content (graph_lines graph1)) w2) in *.
  pose proof (createRelations_run [link] w3 graph1 (loadGraph_saved graph1 w2))
    as Hrelations.
  set (graph2 := {| entities := entities graph1;
                    relations := relations graph1 ++ new_relations graph1 [link] |}) in *.
  set (w4 := set_memory_file (Content (graph_lines graph2)) w3) in *.
  assert (∃ found : option KnowledgeGraph,
            (match (if truthy_opt_bool (raw_retrieveFromMemory data)
                    then nonempty (Some ctx) else None) with
             | Some context => graph ←' searchNodes toLowerCase context; ret (Some graph)
             | None => ret None
             end) w = (Return found, w)
            ∧ ∀ g, searchNodes toLowerCase ctx w = (Return g, w) →
                   found = if truthy_opt_bool (raw_retrieveFromMemory data)
                           then Some g else None) as (found & Hfound & Hcount).
  { destruct (truthy_opt_bool (raw_retrieveFromMemory data)).
    - rewrite (nonempty_Some ctx Hne). eexists. split.
      + rewrite (bind_Return _ _ _ _ _ (searchNodes_run toLowerCase ctx w graph Hgraph)).
        reflexivity.
      + intros g Hg. rewrite (searchNodes_run toLowerCase ctx w graph Hgraph) in Hg.
        now injection Hg as <-.
    - exists None. split; [reflexivity | auto]. }
  eexists _, w4, graph2. split.
  { unfold processThought, try_catch.
    rewrite (bind_Return _ _ w input w) by (now rewrite lift_run, Hvalid).
    cbv zeta. rewrite Hr', Hr, Hc', Hc, Hs', Hs, Hstore, Hctx.
    rewrite (bind_Return _ _ _ _ _ Hfound).
    rewrite (bind_Return _ _ _ _ _ Hrun).
    cbn [truthy_opt_bool]. rewrite (nonempty_Some ctx Hne).
    rewrite widen_totalThoughts_thought. cbv beta iota.
    fold entity. fold link.
    rewrite (bind_Return _ _ w2 tt w4).
    - reflexivity.
    - rewrite (bind_Return _ _ _ _ _ Hentities).
      now rewrite (bind_Return _ _ _ _ _ Hrelations). }
  cbn [contextStored thoughtChainId relevantContext].
  split; [reflexivity|]. split; [reflexivity|].
  split; [apply loadGraph_saved|].
  subst graph2 graph1 entity. cbn [entities relations].
  split; [|split; [|split]].
  - intros Hfresh. unfold new_entities. cbn [List.filter Entity.name].
    apply existsb_name_false in Hfresh. now rewrite Hfresh.
  - intros Hold. unfold new_entities. cbn [List.filter Entity.name].
    apply existsb_name_true in Hold. rewrite Hold. apply app_nil_r.
  - intros link' ->. fold link.
    unfold new_relations. cbn [List.filter relations]. split; intros Hlink.
    + assert (existsb (λ existingRelation, same_relation existingRelation link)
                (relations graph) = false) as Hex.
      { apply not_true_iff_false. intros Hex.
        now apply existsb_relation_true in Hex. }
      now rewrite Hex.
    + apply existsb_relation_true in Hlink. rewrite Hlink. apply app_nil_r.
  - intros g Hg. rewrite (Hcount g Hg).
    now destruct (truthy_opt_bool (raw_retrieveFromMemory data)).
Qed.

Lemma processThought_stores_insight_witness :
  ∃ r w',
    processThought ascii_toLowerCase
      (request (number_of_Z 1) None None (Some "topic"%string) (Some true) (Some true))
      fresh_world
    = (Return {| content := ResultText r; isError := None |}, w') ∧
    contextStored r = true ∧
    relevantContext r = Some {| entities_count := 0; relations_count := 0 |} ∧
    ∃ graph',
      loadGraph w' = (Return graph', w') ∧
      entities graph' = [Entity.mk "topic" "ThoughtContext" ["A"]] ∧
      relations graph'
      = [Relation.mk "topic" "ThoughtChain_loyw3v28k3x9q" "has_thinking_process"].
Proof.
  destruct (processThought_stores_insight ascii_toLowerCase
              (request (number_of_Z 1) None None (Some "topic"%string) (Some true)
                 (Some true))
              (thought_input (number_of_Z 1) None None (Some "topic"%string) (Some true)
                 (Some true))
              "topic" fresh_world empty_graph ∅)
    as (r & w' & graph' & Hrun & Hstored & _ & Hload & Hnew & _ & Hlink & Hcount).
  - reflexivity.
  - reflexivity.
  - reflexivity.
  - discriminate.
  - reflexivity.
  - reflexivity.
  - now apply not_prototype_key.
  - exists r, w'. split; [exact Hrun|]. split; [exact Hstored|]. split.
    + exact (Hcount empty_graph eq_refl).
    + exists graph'. split; [exact Hload|]. split.
      * apply Hnew, not_elem_of_nil.
      * destruct (Hlink _ eq_refl) as [Hadd _]. apply Hadd, not_elem_of_nil.
Defined.

(** X23. The two stores are not updated together.  Take a request that
    passes validation, with [storeInMemory] true, a non-empty context and
    no retrieval, whose numbers are finite and not [-0]; a chain file that
    is absent or holds a JSON object of chains with such numbers; and a
    chain identifier (the non-empty [branchId], or else the generated one)
    that is no member name of [Object.prototype].  When the graph file
    cannot be loaded, the request is answered with the failure response
    carrying the load error, but the thought (with [totalThoughts] widened
    and the last clock value read as its timestamp) was appended before
    the graph was read, and the chain file keeps it. *)
Theorem processThought_insight_failure toLowerCase data input ctx e w thinking :
  validateInput data = Return input →
  raw_storeInMemory data = Some true →
  raw_context data = Some ctx → ctx ≠ ""%string →
  truthy_opt_bool (raw_retrieveFromMemory data) = false →
  fst (loadGraph w) = Throw e →
  loadThinking w = (Return thinking, w) →
  json_store thinking →
  json_thought input = true →
  chain_id_of input w ∉ Object_prototype_keys →
  ∃ w' chain,
    processThought toLowerCase data w
    = (Return {| content := FailureText (error_message e) "failed";
                 isError := Some true |}, w') ∧
    thinking_file w' = Content (Parsed (<[chain_id_of input w := chain]> thinking)) ∧
    match routed_branch input with
    | None =>
        last (ThoughtChain.thoughts chain)
        = Some (set_timestamp (widen_totalThoughts input)
                  (clock w (Nat.pred (clock_reads w'))))
    | Some b =>
        ∃ branch,
          ThoughtChain.branches chain !! b = Some branch
          ∧ last branch
            = Some (set_timestamp (widen_totalThoughts input)
                      (clock w (Nat.pred (clock_reads w'))))
    end.
Proof.
  intros Hvalid Hstore Hctx Hne Hretrieve Hgraph Hload _ _ Hplain.
  destruct (validateInput_fields data input Hvalid)
    as (_ & _ & _ & _ & _ & _ & Hc & Hs & Hr).
  destruct (widen_totalThoughts_fields input) as (_ & _ & Hc' & Hs' & Hr').
  rewrite <- (chain_id_of_widen input w) in Hplain.
  pose proof (storeThought_run (widen_totalThoughts input) w thinking Hload
                (lookups_plain_intro _ _ _ Hplain)) as Hrun.
  rewrite (chain_id_of_widen input w) in Hrun.
  set (w2 := after_store (widen_totalThoughts input) thinking w) in *.
  assert (createEntities [Entity.mk ctx "ThoughtContext" [thought input]] w2
          = (Throw e, w2)) as Hfail.
  { unfold createEntities. apply bind_Throw.
    rewrite (loadGraph_same_file w) by apply after_create_memory.
    now rewrite Hgraph. }
  unfold processThought, try_catch.
  rewrite (bind_Return _ _ w input w) by (now rewrite lift_run, Hvalid).
  cbv zeta. rewrite Hr', Hr, Hc', Hc, Hs', Hs, Hstore, Hctx, Hretrieve.
  rewrite (bind_Return _ _ w None w) by reflexivity.
  rewrite (bind_Return _ _ _ _ _ Hrun).
  cbn [truthy_opt_bool]. rewrite (nonempty_Some ctx Hne).
  rewrite widen_totalThoughts_thought. cbv beta iota.
  rewrite (bind_Throw _ _ w2 e w2) by now apply bind_Throw.
  exists w2, (stored_chain (widen_totalThoughts input) thinking w).
  split; [reflexivity|].
  split; [unfold w2, after_store; now rewrite chain_id_of_widen|].
  assert (routed_branch (widen_totalThoughts input) = routed_branch input) as Hroute.
  { unfold routed_branch.
    now destruct (widen_totalThoughts_fields input) as (-> & -> & _). }
  unfold stored_chain, append_to. rewrite Hroute.
  destruct (routed_branch input) as [b|]; cbn.
  - eexists. rewrite lookup_insert_eq. split; [reflexivity | apply last_snoc].
  - apply last_snoc.
Qed.

Lemma processThought_insight_failure_witness :
  ∃ w' chain,
    processThought ascii_toLowerCase
      (request (number_of_Z 1) None None (Some "topic"%string) (Some true) None)
      corrupt_graph_world
    = (Return {| content := FailureText "Unexpected token in JSON" "failed";
                 isError := Some true |}, w') ∧
    thinking_file w' = Content (Parsed (<["loyw3v28k3x9q"%string := chain]> ∅)) ∧
    last (ThoughtChain.thoughts chain)
    = Some (set_timestamp
              (widen_totalThoughts
                 (thought_input (number_of_Z 1) None None (Some "topic"%string)
                    (Some true) None))
              (sample_clock (Nat.pred (clock_reads w')))).
Proof.
  exact (processThought_insight_failure ascii_toLowerCase
           (request (number_of_Z 1) None None (Some "topic"%string) (Some true) None)
           (thought_input (number_of_Z 1) None None (Some "topic"%string) (Some true) None)
           "topic" (SyntaxError "Unexpected token in JSON") corrupt_graph_world ∅
           eq_refl eq_refl eq_refl ltac:(discriminate) eq_refl eq_refl eq_refl
           json_store_empty eq_refl
           (not_prototype_key "loyw3v28k3x9q" eq_refl)).
Defined.

(** ** Which file each operation writes *)

Lemma storeThought_memory_file input w :
  memory_file (snd (storeThought input w)) = memory_file w.
Proof.
  destruct (loadThinking w) as [[thinking|e] w1] eqn:Hload.
  2:{ pose proof (loadThinking_world w) as Hw. rewrite Hload in Hw.
      cbn in Hw. subst w1. unfold storeThought.
      now rewrite (bind_Throw _ _ _ _ _ Hload). }
  pose proof (loadThinking_world w) as Hw. rewrite Hload in Hw. cbn in Hw. subst w1.
  unfold storeThought. rewrite (bind_Return _ _ _ _ _ Hload).
  rewrite (bind_Return _ _ _ _ _ (resolve_id input w)).
  assert (memory_file (after_id input w) = memory_file w) as <-
    by (unfold after_id; now destruct (nonempty (branchId input))).
  generalize (after_id input w) (chain_id_of input w). intros w1 id.
  unfold bind, ret, throw, saveThinking, Date_now.
  repeat match goal with
         | |- context [match get_property ?m ?k with _ => _ end] =>
             destruct (get_property m k)
         | |- context [match (if ?c then _ else _) with _ => _ end] => destruct c
         | |- context [match nonempty ?o with _ => _ end] => destruct (nonempty o)
         end; reflexivity.
Qed.

Lemma graph_write_thinking_file {A} (m : KnowledgeGraph → outcome (A * KnowledgeGraph)) w :
  thinking_file
    (snd ((graph ←' loadGraph; r ←' lift (m graph); saveGraph (snd r) ;;' ret (fst r)) w))
  = thinking_file w.
Proof.
  unfold bind, lift, saveGraph, ret.
  pose proof (loadGraph_world w) as Hw.
  destruct (loadGraph w) as [[graph|e] w1]; cbn in Hw; subst w1; [|reflexivity].
  now destruct (m graph) as [[a graph']|e].
Qed.

(** X24. Each store writes its own file only: whatever the outcome,
    [storeThought] leaves the graph file as it was, and [createEntities],
    [createRelations], [addObservations] and [searchNodes] leave the chain
    file as it was; [searchNodes] changes nothing at all. *)
Theorem stores_write_their_own_file toLowerCase w :
  (∀ input, memory_file (snd (storeThought input w)) = memory_file w) ∧
  (∀ candidates, thinking_file (snd (createEntities candidates w)) = thinking_file w) ∧
  (∀ candidates, thinking_file (snd (createRelations candidates w)) = thinking_file w) ∧
  (∀ batch, thinking_file (snd (addObservations batch w)) = thinking_file w) ∧
  (∀ q, snd (searchNodes toLowerCase q w) = w).
Proof.
  split; [intros input; apply storeThought_memory_file|].
  split; [|split; [|split]].
  - intros candidates.
    apply (graph_write_thinking_file
             (λ graph, Return (new_entities graph candidates,
                               {| entities := entities graph ++ new_entities graph candidates;
                                  relations := relations graph |}))).
  - intros candidates.
    apply (graph_write_thinking_file
             (λ graph, Return (new_relations graph candidates,
                               {| entities := entities graph;
                                  relations := relations graph ++ new_relations graph candidates |}))).
  - intros batch. apply (graph_write_thinking_file (add_each batch)).
  - intros q. apply searchNodes_world.
Qed.

Lemma truthy_opt_bool_true (o : option bool) : truthy_opt_bool o = true ↔ o = Some true.
Proof. destruct o as [[]|]; cbn; split; congruence. Qed.

(** X25. A request writes the graph file only if it asks for it: unless
    [storeInMemory] is true and the context is a non-empty string, the
    graph file after [processThought] is the one before, whatever the
    response. *)
Theorem processThought_graph_untouched toLowerCase data w :
  raw_storeInMemory data ≠ Some true ∨ nonempty (raw_context data) = None →
  memory_file (snd (processThought toLowerCase data w)) = memory_file w.
Proof.
  intros Hoff.
  destruct (validateInput data) as [input|e] eqn:Hvalid.
  2:{ now rewrite (processThought_invalid toLowerCase data e w Hvalid). }
  destruct (validateInput_fields data input Hvalid)
    as (_ & _ & _ & _ & _ & _ & Hc & Hs & Hr).
  destruct (widen_totalThoughts_fields input) as (_ & _ & Hc' & Hs' & Hr').
  assert ((if truthy_opt_bool (raw_storeInMemory data)
           then nonempty (raw_context data) else None) = None) as Hskip.
  { destruct (truthy_opt_bool (raw_storeInMemory data)) eqn:Hflag; [|reflexivity].
    apply truthy_opt_bool_true in Hflag. now destruct Hoff. }
  unfold processThought, try_catch.
  rewrite (bind_Return _ _ w input w) by (now rewrite lift_run, Hvalid).
  cbv zeta. rewrite Hr', Hr, Hc', Hc, Hs', Hs, Hskip.
  pose proof (storeThought_memory_file (widen_totalThoughts input) w) as Hstore.
  assert (∀ found : option KnowledgeGraph,
            memory_file
              (snd (match
                      (thoughtChainId ←' storeThought (widen_totalThoughts input);
                       ret tt ;;'
                       ret {| content :=
                                ResultText
                                  {| result_thoughtNumber :=
                                       thoughtNumber (widen_totalThoughts input);
                                     result_totalThoughts :=
                                       totalThoughts (widen_totalThoughts input);
                                     result_nextThoughtNeeded :=
                                       nextThoughtNeeded (widen_totalThoughts input);
                                     thoughtChainId := thoughtChainId;
                                     relevantContext :=
                                       match found with
                                       | Some graph =>
                                           Some {| entities_count := length (entities graph);
                                                   relations_count := length (relations graph) |}
                                       | None => None
                                       end;
                                     contextStored :=
                                       match raw_storeInMemory data with
                                       | Some true => true
                                       | _ => false
                                       end |};
                              isError := None |}) w
                    with
                    | (Return a, w') => (Return a, w')
                    | (Throw e, w') =>
                        ret {| content := FailureText (error_message e) "failed";
                               isError := Some true |} w'
                    end)) = memory_file w) as Hrest.
  { intros found. unfold bind, ret.
    destruct (storeThought (widen_totalThoughts input) w) as [[id|e] w2];
      exact Hstore. }
  destruct (if truthy_opt_bool (raw_retrieveFromMemory data)
            then nonempty (raw_context data) else None) as [ctx|].
  - pose proof (searchNodes_world toLowerCase ctx w) as Hw.
    unfold bind at 1. unfold bind at 1.
    destruct (searchNodes toLowerCase ctx w) as [[found|e] w1]; cbn in Hw; subst w1.
    + cbn [ret]. apply (Hrest (Some found)).
    + reflexivity.
  - unfold bind at 1. cbn [ret]. apply (Hrest None).
Qed.

Lemma processThought_graph_untouched_witness :
  memory_file
    (snd (processThought ascii_toLowerCase
            (request (number_of_Z 1) None None (Some "topic"%string) None (Some true))
            alice_world))
  = memory_file alice_world.
Proof.
  apply (processThought_graph_untouched ascii_toLowerCase). left. discriminate.
Defined.

Lemma processThought_reports_chain_id_witness :
  ∃ r w',
    processThought ascii_toLowerCase
      (request (number_of_Z 2) None (Some "main"%string) None None None) main_world
    = (Return {| content := ResultText r; isError := None |}, w') ∧
    thoughtChainId r = "main"%string.
Proof.
  assert (∃ r w',
            processThought ascii_toLowerCase
              (request (number_of_Z 2) None (Some "main"%string) None None None)
              main_world
            = (Return {| content := ResultText r; isError := None |}, w'))
    as (r & w' & Hrun) by (eexists _, _; reflexivity).
  exists r, w'. split; [exact Hrun|].
  apply (processThought_reports_chain_id ascii_toLowerCase _ _ _ _ r "main"
           Hrun eq_refl eq_refl).
  discriminate.
Defined.
